(** * hyperseti.utils: the [on_gpu] and [datwrapper] decorators

    A shallow embedding of [hyperseti/utils.py].  Python values are an
    inductive type, a decorated call is a computation in a small
    trace-and-exception monad, and the wrapped function is a parameter of the
    development: every statement below holds for all kernels. *)

From Stdlib Require Import List String ZArith Bool Lia.
From Stdlib Require Import Floats.SpecFloat.
Import ListNotations.
Open Scope string_scope.
Open Scope list_scope.

Set Implicit Arguments.

(** ** Python floats

    A Python [float] is an IEEE 754 binary64 number; [*] on two floats is
    the correctly rounded binary64 product. *)

Definition prec : Z := 53.
Definition emax : Z := 1024.

Definition py_float : Type := spec_float.

Definition float_mul (x y : py_float) : py_float := SFmul prec emax x y.

(** The binary64 number nearest to [m * 2^e], in canonical form. *)
Definition float_lit (m e : Z) : py_float := binary_normalize prec emax m e false.

(** ** Arrays

    [numpy.ndarray] lives in host memory, [cupy.ndarray] in device memory.
    Both are modelled by one record whose [space] field says which class the
    object is an instance of. *)

Inductive MemorySpace := Host | Device.

Record ndarray := mk_ndarray {
  space : MemorySpace;
  shape : list nat;
  elems : list Z
}.

Definition is_numpy (a : ndarray) : bool :=
  match space a with Host => true | Device => false end.

Definition is_cupy (a : ndarray) : bool :=
  match space a with Host => false | Device => true end.

(** [cp.asarray] on a numpy array: a device copy with the same shape and
    contents. *)
Definition cp_asarray (a : ndarray) : ndarray :=
  {| space := Device; shape := shape a; elems := elems a |}.

(** [cp.asnumpy] on a cupy array: a host copy with the same shape and
    contents. *)
Definition cp_asnumpy (a : ndarray) : ndarray :=
  {| space := Host; shape := shape a; elems := elems a |}.

(** ** DataArray

    Modelled from the spec: the class [DataArray] of [hyperseti/data_array.py]
    is imported by [utils.py] but not part of the sources at hand.  The
    specification describes it as a raw buffer [data], a free-form mapping
    [attrs] from strings to values, and two axis descriptors [time] and
    [frequency] with scalar fields; it names no length or iteration
    protocol. *)

Record TimeScale := mk_TimeScale {
  time_units : py_float;
  time_val_step : py_float;
  time_start : py_float
}.

Record FrequencyScale := mk_FrequencyScale {
  freq_units : py_float;
  freq_val_step : py_float;
  freq_val_start : py_float
}.

Record DataArrayOf (V : Type) := mk_DataArray {
  data : ndarray;
  attrs : list (string * V);
  time : TimeScale;
  frequency : FrequencyScale
}.

(** ** Python values *)

#[warnings="-register-all"] Inductive value :=
| VNone
| VInt (z : Z)
| VFloat (f : py_float)
| VStr (s : string)
| VArr (a : ndarray)
| VTuple (items : list value)
| VList (items : list value)
| VDict (entries : list (string * value))
| VDataArray (d : DataArrayOf value).

Definition DataArray : Type := DataArrayOf value.

(** A [dict] with string keys, in insertion order. *)
Definition dict : Type := list (string * value).

(** ** Exceptions, events and the call monad

    A decorated call either returns a value or raises; on the way it writes
    to the module logger, calls the copy primitives of cupy and calls the
    wrapped function.  These effects are recorded, in order, in a trace. *)

Inductive exn :=
| AssertionError
| TypeError
| IndexError
| KeyError
| ValueError
| OtherError (cls : string).

Inductive result (A : Type) :=
| Ok (a : A)
| Raise (e : exn).

Arguments Ok {A} a.
Arguments Raise {A} e.

(** The messages of [utils.py], without their formatting. *)
Inductive log_msg :=
| ConvertingArgToCupy (idx : nat)
| ReturnSpaceRequested (v : value)
| ConvertingOutputToCupy
| ConvertingOutputItemToCupy (idx : nat)
| ConvertingOutputToNumpy
| ConvertingOutputItemToNumpy (idx : nat).

Inductive event :=
| LogInfo (func_name : string) (m : log_msg)
| LogDebug (func_name : string) (m : log_msg)
| Asarray (a : ndarray)
| Asnumpy (a : ndarray)
| Call (args : list value) (kwargs : dict).

Definition trace : Type := list event.

Definition M (A : Type) : Type := (trace * result A)%type.

Definition ret {A} (a : A) : M A := ([], Ok a).

Definition raise {A} (e : exn) : M A := ([], Raise e).

Definition bind {A B} (m : M A) (f : A -> M B) : M B :=
  match m with
  | (t, Ok a) => let (t', r) := f a in (t ++ t', r)
  | (t, Raise e) => (t, Raise e)
  end.

Definition emit (e : event) : M unit := ([e], Ok tt).

Definition lift {A} (r : result A) : M A := ([], r).

Definition events {A} (m : M A) : trace := fst m.

Definition outcome {A} (m : M A) : result A := snd m.

Declare Scope py_scope.
Delimit Scope py_scope with py.
Notation "x <- c1 ;; c2" := (bind c1 (fun x => c2))
  (at level 61, c1 at next level, right associativity) : py_scope.
Notation "c1 ;; c2" := (bind c1 (fun _ => c2))
  (at level 61, right associativity) : py_scope.
Open Scope py_scope.

(** ** Built-in operations used by the decorators *)

Definition isinstance_np (v : value) : bool :=
  match v with VArr a => is_numpy a | _ => false end.

Definition isinstance_cp (v : value) : bool :=
  match v with VArr a => is_cupy a | _ => false end.

Definition isinstance_DataArray (v : value) : bool :=
  match v with VDataArray _ => true | _ => false end.

(** [v == s] for a string literal [s], where [v] is [None], a number, a string
    or a container. *)
Definition eq_str (v : value) (s : string) : bool :=
  match v with VStr t => String.eqb t s | _ => false end.

(** The number of elements of an array. *)
Definition size (a : ndarray) : nat := fold_right Nat.mul 1 (shape a).

(** The truth value of [v == s] for a string literal [s] and any [v], as a
    membership test or an [if] takes it.  An array does not compare as one
    object.  A numpy array compares element by element: no number equals a
    string, and the truth value of the array of answers is defined only when
    it has exactly one element, and raises [ValueError] otherwise.  The
    comparison kernels of cupy take arrays and numbers only and raise
    [TypeError] on a string. *)
Definition truth_eq_str (v : value) (s : string) : result bool :=
  match v with
  | VArr a =>
      match space a with
      | Host => if (size a =? 1)%nat then Ok false else Raise ValueError
      | Device => Raise TypeError
      end
  | _ => Ok (eq_str v s)
  end.

(** [v in ('cpu', 'gpu')]: the names are compared in turn. *)
Definition in_cpu_gpu (v : value) : result bool :=
  match truth_eq_str v "cpu" with
  | Ok true => Ok true
  | Ok false => truth_eq_str v "gpu"
  | Raise e => Raise e
  end.

(** [len(v)].  Numbers, [None] and 0-dimensional arrays are unsized. *)
Definition py_len (v : value) : result nat :=
  match v with
  | VNone | VInt _ | VFloat _ => Raise TypeError
  | VStr s => Ok (String.length s)
  | VArr a =>
      match shape a with
      | [] => Raise TypeError
      | n :: _ => Ok n
      end
  | VTuple items | VList items => Ok (List.length items)
  | VDict entries => Ok (List.length entries)
  | VDataArray _ => Raise TypeError
  end.

Fixpoint chunks (k n : nat) (l : list Z) : list (list Z) :=
  match n with
  | O => []
  | S n' => firstn k l :: chunks k n' (skipn k l)
  end.

(** The items that [for item in v] yields: characters of a string, rows of an
    array, items of a tuple or list, keys of a dict. *)
Definition py_iter (v : value) : result (list value) :=
  match v with
  | VNone | VInt _ | VFloat _ => Raise TypeError
  | VStr s => Ok (map (fun c => VStr (String c EmptyString)) (list_ascii_of_string s))
  | VArr a =>
      match shape a with
      | [] => Raise TypeError
      | n :: rest =>
          Ok (map (fun row => VArr {| space := space a; shape := rest; elems := row |})
                  (chunks (fold_right Nat.mul 1 rest) n (elems a)))
      end
  | VTuple items | VList items => Ok items
  | VDict entries => Ok (map (fun kv => VStr (fst kv)) entries)
  | VDataArray _ => Raise TypeError
  end.

(** [t[i]] on a tuple or list. *)
Definition getitem (l : list value) (i : nat) : result value :=
  match nth_error l i with
  | Some v => Ok v
  | None => Raise IndexError
  end.

(** [l[i] = v] on a list. *)
Fixpoint setitem (l : list value) (i : nat) (v : value) : result (list value) :=
  match l, i with
  | [], _ => Raise IndexError
  | _ :: rest, O => Ok (v :: rest)
  | x :: rest, S i' =>
      match setitem rest i' v with
      | Ok rest' => Ok (x :: rest')
      | Raise e => Raise e
      end
  end.

(** *** Dictionaries *)

Definition dict_wf (d : dict) : Prop := NoDup (map fst d).

Fixpoint dict_get (k : string) (d : dict) : option value :=
  match d with
  | [] => None
  | (k', v) :: rest => if String.eqb k' k then Some v else dict_get k rest
  end.

(** [k in d] *)
Definition dict_contains (k : string) (d : dict) : bool :=
  match dict_get k d with Some _ => true | None => false end.

(** [d[k]] *)
Definition dict_getitem (d : dict) (k : string) : result value :=
  match dict_get k d with
  | Some v => Ok v
  | None => Raise KeyError
  end.

Definition dict_remove (k : string) (d : dict) : dict :=
  filter (fun kv => negb (String.eqb (fst kv) k)) d.

(** [d.pop(k)]: the value and the dictionary without the key. *)
Definition dict_pop (d : dict) (k : string) : result (value * dict) :=
  match dict_get k d with
  | Some v => Ok (v, dict_remove k d)
  | None => Raise KeyError
  end.

(** [d[k] = v]: an existing key keeps its position, a new key goes last. *)
Fixpoint dict_set (k : string) (v : value) (d : dict) : dict :=
  match d with
  | [] => [(k, v)]
  | (k', v') :: rest =>
      if String.eqb k' k then (k, v) :: rest else (k', v') :: dict_set k v rest
  end.

(** ** The wrapped function

    A kernel has a [__name__] and, called on positional and keyword
    arguments, returns a value or raises. *)

Record kernel := mk_kernel {
  name : string;
  run : list value -> dict -> result value
}.

(** The call of the kernel on its arguments; the trace records it. *)
Definition call (func : kernel) (args : list value) (kwargs : dict) : M value :=
  ([Call args kwargs], run func args kwargs).

Definition logger_info (func_name : string) (m : log_msg) : M unit :=
  emit (LogInfo func_name m).

Definition logger_debug (func_name : string) (m : log_msg) : M unit :=
  emit (LogDebug func_name m).

Definition asarray (a : ndarray) : M ndarray := ([Asarray a], Ok (cp_asarray a)).

Definition asnumpy (a : ndarray) : M ndarray := ([Asnumpy a], Ok (cp_asnumpy a)).

(** [assert b] *)
Definition py_assert (b : bool) : M unit :=
  if b then ret tt else raise AssertionError.

(** ** on_gpu *)

Section OnGpu.

Variable func : kernel.

Let func_name : string := name func.

(** The loop over [enumerate(args)], from index [idx] on, appending to
    [new_args]. *)
Fixpoint args_loop (idx : nat) (args new_args : list value) : M (list value) :=
  match args with
  | [] => ret new_args
  | arg :: rest =>
      arg <- match arg with
             | VArr a =>
                 if is_numpy a then
                   logger_info func_name (ConvertingArgToCupy idx) ;;
                   a' <- asarray a ;;
                   ret (VArr a')
                 else ret arg
             | _ => ret arg
             end ;;
      args_loop (S idx) rest (new_args ++ [arg])
  end.

(** The loop over [enumerate(output)] of the ['gpu'] branch. *)
Fixpoint gpu_loop (idx : nat) (output new_output : list value) : M (list value) :=
  match output with
  | [] => ret new_output
  | item :: rest =>
      item <- match item with
              | VArr a =>
                  if is_numpy a then
                    logger_info func_name (ConvertingOutputItemToCupy idx) ;;
                    a' <- asarray a ;;
                    ret (VArr a')
                  else ret item
              | _ => ret item
              end ;;
      gpu_loop (S idx) rest (new_output ++ [item])
  end.

(** The loop over [enumerate(output)] of the ['cpu'] branch. *)
Fixpoint cpu_loop (idx : nat) (output new_output : list value) : M (list value) :=
  match output with
  | [] => ret new_output
  | item :: rest =>
      item <- match item with
              | VArr a =>
                  if is_cupy a then
                    logger_info func_name (ConvertingOutputItemToNumpy idx) ;;
                    a' <- asnumpy a ;;
                    ret (VArr a')
                  else ret item
              | _ => ret item
              end ;;
      cpu_loop (S idx) rest (new_output ++ [item])
  end.

(** Lines 40-44: [return_space] and the keyword arguments left for the
    kernel. *)
Definition take_return_space (kwargs : dict) : M (value * dict) :=
  if dict_contains "return_space" kwargs then
    v <- lift (dict_getitem kwargs "return_space") ;;
    logger_debug func_name (ReturnSpaceRequested v) ;;
    p <- lift (dict_pop kwargs "return_space") ;;
    b <- lift (in_cpu_gpu (fst p)) ;;
    py_assert b ;;
    ret p
  else ret (VNone, kwargs).

(** Lines 47-77: the result, given [return_space] and the kernel's output. *)
Definition normalise (return_space output : value) : M value :=
  if eq_str return_space "gpu" then
    n <- lift (py_len output) ;;
    if (n =? 1)%nat || (isinstance_np output || isinstance_cp output) then
      match output with
      | VArr a =>
          if is_numpy a then
            logger_info func_name ConvertingOutputToCupy ;;
            a' <- asarray a ;;
            ret (VArr a')
          else ret output
      | _ => ret output
      end
    else
      items <- lift (py_iter output) ;;
      new_output <- gpu_loop 0 items [] ;;
      ret (VList new_output)
  else if eq_str return_space "cpu" then
    n <- lift (py_len output) ;;
    if (n =? 1)%nat || (isinstance_np output || isinstance_cp output) then
      match output with
      | VArr a =>
          if is_cupy a then
            logger_info func_name ConvertingOutputToNumpy ;;
            a' <- asnumpy a ;;
            ret (VArr a')
          else ret output
      | _ => ret output
      end
    else
      items <- lift (py_iter output) ;;
      new_output <- cpu_loop 0 items [] ;;
      ret (VList new_output)
  else ret output.

(** The function [inner] that [on_gpu(func)] returns. *)
Definition on_gpu (args : list value) (kwargs : dict) : M value :=
  new_args <- args_loop 0 args [] ;;
  p <- take_return_space kwargs ;;
  output <- call func new_args (snd p) ;;
  normalise (fst p) output.

End OnGpu.

(** ** datwrapper *)

Section Datwrapper.

Variable func : kernel.

(** The loop [for k, v in d.attrs.items(): metadata[k] = v]. *)
Fixpoint attrs_loop (items : list (string * value)) (metadata : dict) : dict :=
  match items with
  | [] => metadata
  | (k, v) :: rest => attrs_loop rest (dict_set k v metadata)
  end.

Definition make_metadata (d : DataArray) : dict :=
  let metadata := attrs_loop (attrs d) [] in
  let metadata :=
    dict_set "dt" (VFloat (float_mul (time_units (time d)) (time_val_step (time d))))
             metadata in
  let metadata := dict_set "t0" (VFloat (time_start (time d))) metadata in
  let metadata :=
    dict_set "df"
             (VFloat (float_mul (freq_units (frequency d)) (freq_val_step (frequency d))))
             metadata in
  let metadata :=
    dict_set "f0"
             (VFloat (float_mul (freq_units (frequency d)) (freq_val_start (frequency d))))
             metadata in
  metadata.

(** The function [inner] that [datwrapper(func)] returns. *)
Definition datwrapper (args : list value) (kwargs : dict) : M value :=
  a0 <- lift (getitem args 0) ;;
  p <- match a0 with
       | VDataArray d =>
           let metadata := make_metadata d in
           args <- lift (setitem args 0 (VArr (data d))) ;;
           ret (args, dict_set "metadata" (VDict metadata) kwargs)
       | _ => ret (args, kwargs)
       end ;;
  output <- call func (fst p) (snd p) ;;
  ret output.

End Datwrapper.

(** * Specification vocabulary

    The functions and predicates in which the properties are stated: what
    each loop computes, what it logs, where the buffers of a result live. *)

Definition to_cupy (v : value) : value :=
  match v with
  | VArr a => if is_numpy a then VArr (cp_asarray a) else v
  | _ => v
  end.

Definition to_numpy (v : value) : value :=
  match v with
  | VArr a => if is_cupy a then VArr (cp_asnumpy a) else v
  | _ => v
  end.

Definition to_space (sp : MemorySpace) : value -> value :=
  match sp with Device => to_cupy | Host => to_numpy end.

(** The value of [return_space] that asks for a memory space. *)
Definition space_name (sp : MemorySpace) : string :=
  match sp with Device => "gpu" | Host => "cpu" end.

Fixpoint copies_to_cupy (msg : nat -> log_msg) (fn : string) (idx : nat)
    (l : list value) : trace :=
  match l with
  | [] => []
  | VArr a :: rest =>
      (if is_numpy a then [LogInfo fn (msg idx); Asarray a] else [])
        ++ copies_to_cupy msg fn (S idx) rest
  | _ :: rest => copies_to_cupy msg fn (S idx) rest
  end.

Fixpoint copies_to_numpy (fn : string) (idx : nat) (l : list value) : trace :=
  match l with
  | [] => []
  | VArr a :: rest =>
      (if is_cupy a then [LogInfo fn (ConvertingOutputItemToNumpy idx); Asnumpy a] else [])
        ++ copies_to_numpy fn (S idx) rest
  | _ :: rest => copies_to_numpy fn (S idx) rest
  end.

(** What happens once the kernel has answered. *)
Definition after_call (func : kernel) (return_space : value) (r : result value)
  : M value :=
  match r with
  | Ok output => normalise func return_space output
  | Raise e => ([], Raise e)
  end.

Definition isinstance_ndarray (v : value) : bool :=
  isinstance_np v || isinstance_cp v.

(** The log line and the copy made when the whole output is converted. *)
Definition whole_copy (fn : string) (sp : MemorySpace) (output : value) : trace :=
  match sp, output with
  | Device, VArr a =>
      if is_numpy a then [LogInfo fn ConvertingOutputToCupy; Asarray a] else []
  | Host, VArr a =>
      if is_cupy a then [LogInfo fn ConvertingOutputToNumpy; Asnumpy a] else []
  | _, _ => []
  end.

(** The log lines and the copies made when the output is converted item by
    item. *)
Definition item_copies (fn : string) (sp : MemorySpace) (items : list value) : trace :=
  match sp with
  | Device => copies_to_cupy ConvertingOutputItemToCupy fn 0 items
  | Host => copies_to_numpy fn 0 items
  end.

(** The buffers of a result: the result itself when it is an array, the
    arrays among its items when it is a tuple or a list. *)
Definition buffers (v : value) : list ndarray :=
  match v with
  | VArr a => [a]
  | VTuple items | VList items =>
      flat_map (fun x => match x with VArr a => [a] | _ => [] end) items
  | _ => []
  end.

(** Every buffer of what the call returns lives in [sp]. *)
Definition placed (sp : MemorySpace) (m : M value) : Prop :=
  forall r, outcome m = Ok r -> forall a, In a (buffers r) -> space a = sp.

(** ** Sample values and kernels *)

Definition host_buf : ndarray := {| space := Host; shape := [3]; elems := [1; 2; 3]%Z |}.

Definition device_buf : ndarray := {| space := Device; shape := [2]; elems := [4; 5]%Z |}.

(** A 0-dimensional device array, as [cp.sum(x)] returns. *)
Definition device_scalar : ndarray := {| space := Device; shape := []; elems := [6]%Z |}.

(** A kernel that returns [v] whatever it is called on. *)
Definition kernel_const (v : value) : kernel :=
  {| name := "kernel"; run := fun _ _ => Ok v |}.

(** A kernel that returns its first positional argument. *)
Definition kernel_first : kernel :=
  {| name := "first";
     run := fun args _ =>
              match args with
              | x :: _ => Ok x
              | [] => Raise (OtherError "TypeError")
              end |}.

(** A kernel that refuses a [metadata] keyword and otherwise returns [None]. *)
Definition kernel_no_metadata : kernel :=
  {| name := "strict";
     run := fun _ kwargs =>
              if dict_contains "metadata" kwargs
              then Raise (OtherError "ValueError")
              else Ok VNone |}.

Definition derived_key (k : string) : bool :=
  String.eqb k "dt" || String.eqb k "t0" || String.eqb k "df" || String.eqb k "f0".

(** The kernel is called with keyword [metadata] bound to the dict [md]. *)
Definition calls_with_metadata (m : M value) (md : dict) : Prop :=
  exists a k, In (Call a k) (events m) /\ dict_get "metadata" k = Some (VDict md).

(** Every entry of [d.attrs] is an entry of [md]. *)
Definition contains_attrs (d : DataArray) (md : dict) : Prop :=
  forall k v, dict_get k (attrs d) = Some v -> dict_get k md = Some v.

(** A time axis in microseconds and a frequency axis in MHz.  [0x10c6f7a0b5ed8d * 2^-72] is the
    binary64 number that the literal [1e-6] denotes. *)
Definition example_time : TimeScale :=
  {| time_units := float_lit 0x10c6f7a0b5ed8d (-72);
     time_val_step := float_lit 1 0;
     time_start := float_lit 100 0 |}.

Definition example_frequency : FrequencyScale :=
  {| freq_units := float_lit 1000000 0;
     freq_val_step := float_lit 1 (-1);
     freq_val_start := float_lit 1000 0 |}.

Definition example_data_array : DataArray :=
  {| data := host_buf;
     attrs := [("source", VStr "Voyager1"); ("nbits", VInt 32)];
     time := example_time;
     frequency := example_frequency |}.

(** A DataArray whose attributes already use the name [dt]. *)
Definition clashing_data_array : DataArray :=
  {| data := host_buf;
     attrs := [("dt", VInt 7)];
     time := example_time;
     frequency := example_frequency |}.

(** ** Decorated functions as kernels, and readings of a trace *)

(** What a decorator returns is a function again, and [functools.wraps] gives
    it the [__name__] of [func]: it can be decorated in turn.  Seen as a
    kernel, it answers with the outcome of [inner]. *)
Definition wraps (func : kernel) (inner : list value -> dict -> M value) : kernel :=
  {| name := name func; run := fun args kwargs => outcome (inner args kwargs) |}.

(** [on_gpu(func)] and [datwrapper(func)] as kernels. *)
Definition decorated_on_gpu (func : kernel) : kernel := wraps func (on_gpu func).

Definition decorated_datwrapper (func : kernel) : kernel := wraps func (datwrapper func).

(** The exception that a value of [return_space] other than the two accepted
    names ends the call with: the one its comparison with the names raises,
    or else that of the failed [assert]. *)
Definition rejection (v : value) : exn :=
  match in_cpu_gpu v with
  | Raise e => e
  | Ok _ => AssertionError
  end.

(** [return_space] is absent, or one of the two accepted names. *)
Definition return_space_ok (kwargs : dict) : bool :=
  match dict_get "return_space" kwargs with
  | None => true
  | Some v => eq_str v "cpu" || eq_str v "gpu"
  end.

(** How many times a trace calls the kernel. *)
Fixpoint count_calls (t : trace) : nat :=
  match t with
  | [] => 0
  | Call _ _ :: t' => S (count_calls t')
  | _ :: t' => count_calls t'
  end.

(** The arrays a trace copies to the device, in order. *)
Fixpoint copied_to_device (t : trace) : list ndarray :=
  match t with
  | [] => []
  | Asarray a :: t' => a :: copied_to_device t'
  | _ :: t' => copied_to_device t'
  end.

(** The numpy arrays among the values of a sequence, in order. *)
Fixpoint numpy_arrays (l : list value) : list ndarray :=
  match l with
  | [] => []
  | VArr a :: rest => if is_numpy a then a :: numpy_arrays rest else numpy_arrays rest
  | _ :: rest => numpy_arrays rest
  end.

(** The keys of a dict, as [for key in d] yields them. *)
Definition dict_keys (d : dict) : list value := map (fun kv => VStr (fst kv)) d.

(** The four entries [datwrapper] derives from the axes of [d]. *)
Definition derived_entries (d : DataArray) : dict :=
  [("dt", VFloat (float_mul (time_units (time d)) (time_val_step (time d))));
   ("t0", VFloat (time_start (time d)));
   ("df", VFloat (float_mul (freq_units (frequency d)) (freq_val_step (frequency d))));
   ("f0", VFloat (float_mul (freq_units (frequency d)) (freq_val_start (frequency d))))].

(** * Properties *)

(** ** The call monad and the loops *)

Lemma bind_ret {A B} (a : A) (f : A -> M B) : bind (ret a) f = f a.
Proof. unfold bind, ret. destruct (f a); reflexivity. Qed.

Lemma bind_lift_ok {A B} (a : A) (f : A -> M B) : bind (lift (Ok a)) f = f a.
Proof. apply bind_ret. Qed.

Lemma bind_lift_raise {A B} (e : exn) (f : A -> M B) :
  bind (lift (Raise e)) f = ([], Raise e).
Proof. reflexivity. Qed.

Lemma bind_events_ok {A B} (t : trace) (a : A) (f : A -> M B) :
  bind (t, Ok a) f = (t ++ events (f a), outcome (f a)).
Proof. unfold bind, events, outcome. destruct (f a); reflexivity. Qed.

Ltac loop_step IH :=
  simpl; unfold logger_info, emit, asarray, asnumpy, ret, bind; simpl;
  rewrite IH; rewrite <- ?app_assoc; reflexivity.

Lemma args_loop_eq (func : kernel) (args : list value) :
  forall idx new_args,
    args_loop func idx args new_args =
    (copies_to_cupy ConvertingArgToCupy (name func) idx args,
     Ok (new_args ++ map to_cupy args)).
Proof.
  induction args as [|arg rest IH]; intros idx new_args.
  - simpl. unfold ret. now rewrite app_nil_r.
  - destruct arg; try solve [loop_step IH].
    simpl. destruct (is_numpy a); loop_step IH.
Qed.

Lemma gpu_loop_eq (func : kernel) (output : list value) :
  forall idx new_output,
    gpu_loop func idx output new_output =
    (copies_to_cupy ConvertingOutputItemToCupy (name func) idx output,
     Ok (new_output ++ map to_cupy output)).
Proof.
  induction output as [|item rest IH]; intros idx new_output.
  - simpl. unfold ret. now rewrite app_nil_r.
  - destruct item; try solve [loop_step IH].
    simpl. destruct (is_numpy a); loop_step IH.
Qed.

Lemma cpu_loop_eq (func : kernel) (output : list value) :
  forall idx new_output,
    cpu_loop func idx output new_output =
    (copies_to_numpy (name func) idx output,
     Ok (new_output ++ map to_numpy output)).
Proof.
  induction output as [|item rest IH]; intros idx new_output.
  - simpl. unfold ret. now rewrite app_nil_r.
  - destruct item; try solve [loop_step IH].
    simpl. destruct (is_cupy a); loop_step IH.
Qed.

(** ** Dictionaries *)

Section DictFacts.

Implicit Types (k : string) (v : value) (d : dict).

Lemma dict_get_remove_same k d : dict_get k (dict_remove k d) = None.
Proof.
  induction d as [|[k' v'] d IH]; simpl; [reflexivity|].
  destruct (String.eqb_spec k' k) as [->|Hne]; simpl; [exact IH|].
  destruct (String.eqb_spec k' k); [contradiction|exact IH].
Qed.

Lemma dict_get_remove_other k k0 d :
  k <> k0 -> dict_get k (dict_remove k0 d) = dict_get k d.
Proof.
  intros Hne. induction d as [|[k' v'] d IH]; simpl; [reflexivity|].
  destruct (String.eqb_spec k' k0) as [->|Hk0]; simpl.
  - destruct (String.eqb_spec k0 k); [congruence|exact IH].
  - destruct (String.eqb_spec k' k); [reflexivity|exact IH].
Qed.

Lemma dict_remove_absent k d : dict_get k d = None -> dict_remove k d = d.
Proof.
  induction d as [|[k' v'] d IH]; simpl; [reflexivity|].
  destruct (String.eqb_spec k' k); [discriminate|].
  intros H. simpl. now rewrite IH.
Qed.

Lemma dict_get_set_same k v d : dict_get k (dict_set k v d) = Some v.
Proof.
  induction d as [|[k' v'] d IH]; simpl.
  - now rewrite String.eqb_refl.
  - destruct (String.eqb_spec k' k) as [->|Hne]; simpl.
    + now rewrite String.eqb_refl.
    + destruct (String.eqb_spec k' k); [contradiction|exact IH].
Qed.

Lemma dict_get_set_other k k0 v d :
  k <> k0 -> dict_get k (dict_set k0 v d) = dict_get k d.
Proof.
  intros Hne. induction d as [|[k' v'] d IH]; simpl.
  - destruct (String.eqb_spec k0 k); [congruence|reflexivity].
  - destruct (String.eqb_spec k' k0) as [->|Hk0]; simpl.
    + destruct (String.eqb_spec k0 k); [congruence|reflexivity].
    + destruct (String.eqb_spec k' k); [reflexivity|exact IH].
Qed.

Lemma dict_get_absent k d : ~ In k (map fst d) -> dict_get k d = None.
Proof.
  induction d as [|[k' v'] d IH]; simpl; [reflexivity|].
  intros H. destruct (String.eqb_spec k' k) as [->|Hne].
  - exfalso. apply H. now left.
  - apply IH. intros Hin. apply H. now right.
Qed.

(** Copying item by item into a dictionary: the items win over what the
    dictionary held. *)
Lemma dict_get_attrs_loop k items :
  dict_wf items ->
  forall metadata,
    dict_get k (attrs_loop items metadata) =
    match dict_get k items with
    | Some v => Some v
    | None => dict_get k metadata
    end.
Proof.
  unfold dict_wf.
  induction items as [|[k1 v1] rest IH]; simpl; intros Hwf metadata; [reflexivity|].
  inversion Hwf as [|? ? Hnotin Hrest]; subst.
  rewrite (IH Hrest).
  destruct (String.eqb_spec k1 k) as [->|Hne].
  - rewrite (dict_get_absent _ _ Hnotin). apply dict_get_set_same.
  - rewrite dict_get_set_other by congruence. reflexivity.
Qed.

Lemma eq_str_true_iff v s : eq_str v s = true <-> v = VStr s.
Proof.
  destruct v; simpl; split; try discriminate; try congruence.
  - intros H. apply String.eqb_eq in H. now subst.
  - intros H. inversion H. apply String.eqb_refl.
Qed.

Lemma eq_str_false_iff v s : eq_str v s = false <-> v <> VStr s.
Proof.
  rewrite <- eq_str_true_iff. destruct (eq_str v s); split; congruence.
Qed.

End DictFacts.

(** ** The shape of a call of [on_gpu(func)] *)

(** The membership test accepts the two names and nothing else; on a value
    that is no array it cannot raise. *)
Lemma in_cpu_gpu_eq (v : value) :
  in_cpu_gpu v =
  if eq_str v "cpu" || eq_str v "gpu" then Ok true
  else match in_cpu_gpu v with
       | Ok _ => Ok false
       | Raise e => Raise e
       end.
Proof.
  unfold in_cpu_gpu.
  destruct v; try reflexivity.
  - cbn [truth_eq_str eq_str]. destruct (String.eqb s "cpu"); [reflexivity|].
    cbn [orb]. destruct (String.eqb s "gpu"); reflexivity.
  - cbn [truth_eq_str eq_str orb]. destruct (space a); [|reflexivity].
    destruct (size a =? 1)%nat; reflexivity.
Qed.

Lemma rejection_not_array (v : value) :
  match v with VArr _ => False | _ => True end -> rejection v = AssertionError.
Proof.
  unfold rejection, in_cpu_gpu. destruct v; try reflexivity; [|contradiction].
  intros _. cbn [truth_eq_str eq_str]. destruct (String.eqb s "cpu"); reflexivity.
Qed.

Lemma rejection_numpy (a : ndarray) :
  is_numpy a = true ->
  rejection (VArr a) = if (size a =? 1)%nat then AssertionError else ValueError.
Proof.
  unfold rejection, in_cpu_gpu, is_numpy. cbn [truth_eq_str].
  destruct (space a); [|discriminate]. intros _.
  destruct (size a =? 1)%nat; reflexivity.
Qed.

Lemma on_gpu_eq (func : kernel) (args : list value) (kwargs : dict) :
  on_gpu func args kwargs =
  let new_args := map to_cupy args in
  let conv := copies_to_cupy ConvertingArgToCupy (name func) 0 args in
  match dict_get "return_space" kwargs with
  | None => (conv ++ [Call new_args kwargs], run func new_args kwargs)
  | Some v =>
      if eq_str v "cpu" || eq_str v "gpu" then
        let kwargs' := dict_remove "return_space" kwargs in
        let m := after_call func v (run func new_args kwargs') in
        (conv ++ LogDebug (name func) (ReturnSpaceRequested v)
              :: Call new_args kwargs' :: events m,
         outcome m)
      else (conv ++ [LogDebug (name func) (ReturnSpaceRequested v)],
            Raise (rejection v))
  end.
Proof.
  unfold on_gpu. rewrite args_loop_eq.
  unfold take_return_space, dict_contains, dict_getitem, dict_pop, after_call,
    call, logger_debug, emit, lift, ret.
  cbv zeta. simpl app.
  destruct (dict_get "return_space" kwargs) as [v|]; cbn [bind fst snd].
  - rewrite (in_cpu_gpu_eq v). unfold rejection.
    destruct (eq_str v "cpu" || eq_str v "gpu");
      [|destruct (in_cpu_gpu v) as [b|e]];
      cbn [py_assert ret raise bind fst snd app].
    + destruct (run func (map to_cupy args) (dict_remove "return_space" kwargs))
        as [output|e]; cbn [bind fst snd app events outcome].
      * destruct (normalise func v output) as [t r]; reflexivity.
      * reflexivity.
    + rewrite ?app_nil_r. reflexivity.
    + rewrite ?app_nil_r. reflexivity.
  - destruct (run func (map to_cupy args) kwargs) as [output|e];
      cbn [bind fst snd app normalise eq_str ret]; rewrite ?app_nil_r; reflexivity.
Qed.

(** ** Result normalisation *)

Lemma normalise_eq (func : kernel) (sp : MemorySpace) (output : value) :
  normalise func (VStr (space_name sp)) output =
  match py_len output with
  | Raise e => ([], Raise e)
  | Ok n =>
      if (n =? 1)%nat || isinstance_ndarray output then
        (whole_copy (name func) sp output, Ok (to_space sp output))
      else
        match py_iter output with
        | Ok items =>
            (item_copies (name func) sp items, Ok (VList (map (to_space sp) items)))
        | Raise e => ([], Raise e)
        end
  end.
Proof.
  unfold normalise, isinstance_ndarray, lift.
  destruct sp; cbn [space_name eq_str String.eqb Ascii.eqb Bool.eqb];
    (destruct (py_len output) as [n|e]; cbn [bind]; [|reflexivity]);
    (destruct ((n =? 1)%nat || (isinstance_np output || isinstance_cp output))).
  - destruct output; try reflexivity. cbn [to_space to_numpy whole_copy].
    destruct (is_cupy a); reflexivity.
  - destruct (py_iter output) as [items|e]; cbn [bind]; [|reflexivity].
    rewrite cpu_loop_eq. cbn [bind ret app]. now rewrite app_nil_r.
  - destruct output; try reflexivity. cbn [to_space to_cupy whole_copy].
    destruct (is_numpy a); reflexivity.
  - destruct (py_iter output) as [items|e]; cbn [bind]; [|reflexivity].
    rewrite gpu_loop_eq. cbn [bind ret app]. now rewrite app_nil_r.
Qed.

(** A sized value can be iterated. *)
Lemma py_iter_sized (v : value) (n : nat) :
  py_len v = Ok n -> exists items, py_iter v = Ok items.
Proof.
  destruct v; simpl; try discriminate; eauto.
  destruct (shape a); [discriminate|eauto].
Qed.

Lemma to_space_not_array (sp : MemorySpace) (v : value) :
  isinstance_ndarray v = false -> to_space sp v = v.
Proof.
  destruct sp, v; try reflexivity; unfold isinstance_ndarray; simpl;
    unfold is_numpy, is_cupy; destruct (space a); simpl; congruence.
Qed.

Lemma to_space_array (sp : MemorySpace) (a : ndarray) :
  to_space sp (VArr a) =
  VArr {| space := sp; shape := shape a; elems := elems a |}.
Proof.
  destruct sp, a as [[] sh el]; reflexivity.
Qed.

(** No logged copy of arguments or of output items converts anything but an
    array that lives in the other space. *)
Lemma copies_to_cupy_no_call msg fn l :
  forall idx a k, ~ In (Call a k) (copies_to_cupy msg fn idx l).
Proof.
  induction l as [|v l IH]; intros idx a k; simpl; [tauto|].
  destruct v; try apply IH.
  intros H. apply in_app_or in H. destruct H as [H|H]; [|exact (IH _ _ _ H)].
  destruct (is_numpy a0); simpl in H; intuition discriminate.
Qed.

Lemma copies_to_cupy_numpy msg fn l :
  forall idx a, In (Asarray a) (copies_to_cupy msg fn idx l) ->
                is_numpy a = true /\ In (VArr a) l.
Proof.
  induction l as [|v l IH]; intros idx a; simpl; [tauto|].
  destruct v; try (intros H; destruct (IH _ _ H); split; auto).
  intros H. apply in_app_or in H. destruct H as [H|H].
  - destruct (is_numpy a0) eqn:E; simpl in H; [|tauto].
    destruct H as [H|[H|[]]]; [discriminate|]. inversion H; subst. auto.
  - destruct (IH _ _ H). auto.
Qed.

Lemma copies_to_cupy_index msg fn l :
  forall idx i, In (LogInfo fn (msg i)) (copies_to_cupy msg fn idx l) ->
    (forall i j, msg i = msg j -> i = j) ->
    exists a, idx <= i /\ nth_error l (i - idx) = Some (VArr a) /\ is_numpy a = true.
Proof.
  induction l as [|v l IH]; intros idx i; simpl; [tauto|].
  assert (Hrest : In (LogInfo fn (msg i)) (copies_to_cupy msg fn (S idx) l) ->
                  (forall i j, msg i = msg j -> i = j) ->
                  exists a, idx <= i /\ nth_error (v :: l) (i - idx) = Some (VArr a)
                            /\ is_numpy a = true).
  { intros H Hinj. destruct (IH _ _ H Hinj) as (a & Hle & Hnth & Hnp).
    exists a. split; [lia|]. split; [|exact Hnp].
    replace (i - idx) with (S (i - S idx)) by lia. exact Hnth. }
  destruct v; try exact Hrest.
  intros H Hinj. apply in_app_or in H. destruct H as [H|H]; [|exact (Hrest H Hinj)].
  destruct (is_numpy a) eqn:E; simpl in H; [|tauto].
  destruct H as [H|[H|[]]]; [|discriminate].
  inversion H as [Hmsg]. apply Hinj in Hmsg. subst i.
  exists a. rewrite Nat.sub_diag. simpl. auto.
Qed.

(** ** Claims about [on_gpu] *)

(** C8: when [return_space] is not among the keyword arguments, the decorated
    call returns exactly what the kernel returned (or raises what it raised):
    the kernel's call is the last event of the trace, so the output is
    neither measured, iterated nor copied, whatever it is. *)
Theorem on_gpu_without_return_space (func : kernel) (args : list value) (kwargs : dict) :
  dict_contains "return_space" kwargs = false ->
  outcome (on_gpu func args kwargs) = run func (map to_cupy args) kwargs /\
  events (on_gpu func args kwargs) =
    copies_to_cupy ConvertingArgToCupy (name func) 0 args
      ++ [Call (map to_cupy args) kwargs].
Proof.
  unfold dict_contains. intros H. rewrite on_gpu_eq. cbv zeta.
  destruct (dict_get "return_space" kwargs); [discriminate|].
  split; reflexivity.
Qed.

Lemma on_gpu_without_return_space_witness :
  dict_contains "return_space" [("axis", VInt 0)] = false /\
  outcome (on_gpu (kernel_const (VTuple [VArr host_buf; VArr device_buf]))
                  [VArr host_buf] [("axis", VInt 0)])
  = Ok (VTuple [VArr host_buf; VArr device_buf]).
Proof.
  split; [reflexivity|].
  apply (on_gpu_without_return_space
           (kernel_const (VTuple [VArr host_buf; VArr device_buf]))
           [VArr host_buf] [("axis", VInt 0)]).
  reflexivity.
Defined.

(** C3, as stated, fails: [return_space] bound to a numpy array of three
    elements is a value other than ['cpu'] and ['gpu'], yet the call does not
    end with the [AssertionError] of the [assert]: the comparison of the array
    with ['cpu'] raises [ValueError] first. *)
Lemma on_gpu_array_return_space :
  VArr host_buf <> VStr "cpu" /\
  VArr host_buf <> VStr "gpu" /\
  outcome (on_gpu kernel_first [VInt 1] [("return_space", VArr host_buf)])
  = Raise ValueError /\
  outcome (on_gpu kernel_first [VInt 1] [("return_space", VArr host_buf)])
  <> Raise AssertionError.
Proof.
  repeat split; discriminate.
Qed.

(** C3, amended: when [return_space] is given with a value other than ['cpu']
    and ['gpu'], the call raises and the trace holds no call of the kernel:
    the failure comes before the kernel would run, and no result is
    produced.  For a value that is no array the exception is the
    [AssertionError] of the [assert]; a numpy array is compared element by
    element, and when its size is not 1 that comparison raises [ValueError]
    instead. *)
Theorem on_gpu_rejects_return_space (func : kernel) (args : list value) (kwargs : dict)
    (v : value) :
  dict_get "return_space" kwargs = Some v ->
  v <> VStr "cpu" ->
  v <> VStr "gpu" ->
  (exists e, outcome (on_gpu func args kwargs) = Raise e) /\
  (isinstance_ndarray v = false ->
   outcome (on_gpu func args kwargs) = Raise AssertionError) /\
  (forall a, v = VArr a -> is_numpy a = true -> size a <> 1 ->
   outcome (on_gpu func args kwargs) = Raise ValueError) /\
  forall a k, ~ In (Call a k) (events (on_gpu func args kwargs)).
Proof.
  intros Hget Hcpu Hgpu. rewrite on_gpu_eq. cbv zeta. rewrite Hget.
  apply eq_str_false_iff in Hcpu, Hgpu. rewrite Hcpu, Hgpu. cbn [orb events outcome fst snd].
  split; [eauto|]. split; [|split].
  - intros Hv. f_equal. apply rejection_not_array.
    destruct v; try exact I. unfold isinstance_ndarray in Hv. cbn in Hv.
    unfold is_numpy, is_cupy in Hv. destruct (space a); discriminate.
  - intros a -> Hnp Hsize. f_equal. rewrite (rejection_numpy _ Hnp).
    apply Nat.eqb_neq in Hsize. now rewrite Hsize.
  - intros a k Hin. apply in_app_or in Hin. destruct Hin as [Hin|Hin].
    + exact (copies_to_cupy_no_call _ _ _ _ _ _ Hin).
    + simpl in Hin. intuition discriminate.
Qed.

Lemma on_gpu_rejects_return_space_witness :
  outcome (on_gpu kernel_first [VArr host_buf] [("return_space", VStr "tpu")])
  = Raise AssertionError /\
  forall a k,
    ~ In (Call a k)
         (events (on_gpu kernel_first [VArr host_buf] [("return_space", VStr "tpu")])).
Proof.
  destruct (on_gpu_rejects_return_space kernel_first [VArr host_buf]
              [("return_space", VStr "tpu")] (v := VStr "tpu"))
    as (_ & Hassert & _ & Hcall); [reflexivity | discriminate | discriminate |].
  split; [apply Hassert; reflexivity | exact Hcall].
Defined.

(** C9: with [return_space] set to ['cpu'] or ['gpu'], a kernel output on
    which [len] is undefined (a number, [None], a 0-dimensional array) makes
    the call raise [TypeError]: [len(output)] is evaluated first, so no such
    output is ever returned. *)
Theorem on_gpu_unsized_output (func : kernel) (args : list value) (kwargs : dict)
    (sp : MemorySpace) (output : value) :
  dict_get "return_space" kwargs = Some (VStr (space_name sp)) ->
  run func (map to_cupy args) (dict_remove "return_space" kwargs) = Ok output ->
  py_len output = Raise TypeError ->
  outcome (on_gpu func args kwargs) = Raise TypeError.
Proof.
  intros Hget Hrun Hlen. rewrite on_gpu_eq. cbv zeta. rewrite Hget.
  replace (eq_str (VStr (space_name sp)) "cpu" || eq_str (VStr (space_name sp)) "gpu")
    with true by (destruct sp; reflexivity).
  rewrite Hrun. cbn [after_call outcome snd].
  rewrite normalise_eq, Hlen. reflexivity.
Qed.

Lemma on_gpu_unsized_output_witness :
  outcome (on_gpu (kernel_const (VArr device_scalar)) [VArr host_buf]
                  [("return_space", VStr "cpu")])
  = Raise TypeError.
Proof.
  apply (on_gpu_unsized_output (kernel_const (VArr device_scalar)) [VArr host_buf]
           [("return_space", VStr "cpu")] Host (output := VArr device_scalar));
    reflexivity.
Defined.

(** The unsized values of the model. *)
Lemma py_len_unsized (v : value) :
  py_len v = Raise TypeError <->
  match v with
  | VNone | VInt _ | VFloat _ | VDataArray _ => True
  | VArr a => shape a = []
  | _ => False
  end.
Proof.
  destruct v; simpl; try tauto; try (split; [discriminate|tauto]).
  destruct (shape a); split; congruence.
Qed.

Lemma return_space_accepted (sp : MemorySpace) :
  eq_str (VStr (space_name sp)) "cpu" || eq_str (VStr (space_name sp)) "gpu" = true.
Proof. destruct sp; reflexivity. Qed.

(** A call with an accepted [return_space] whose kernel returns [output]. *)
Lemma on_gpu_returning (func : kernel) (args : list value) (kwargs : dict)
    (sp : MemorySpace) (output : value) :
  dict_get "return_space" kwargs = Some (VStr (space_name sp)) ->
  run func (map to_cupy args) (dict_remove "return_space" kwargs) = Ok output ->
  on_gpu func args kwargs =
  (copies_to_cupy ConvertingArgToCupy (name func) 0 args
     ++ LogDebug (name func) (ReturnSpaceRequested (VStr (space_name sp)))
     :: Call (map to_cupy args) (dict_remove "return_space" kwargs)
     :: events (normalise func (VStr (space_name sp)) output),
   outcome (normalise func (VStr (space_name sp)) output)).
Proof.
  intros Hget Hrun. rewrite on_gpu_eq. cbv zeta.
  rewrite Hget, return_space_accepted, Hrun. reflexivity.
Qed.

(** C5: a kernel output of length 1 is handled as one object.  With
    [return_space] ['gpu'] or ['cpu'] the call returns the output itself,
    converted only when the output as a whole is an array in the other
    space; after the kernel's call the trace holds at most that one
    conversion, never a per-item one.  A non-array output of length 1, such
    as a one-item list, comes back as it is, whatever its item; a host array
    of length 1 comes back as its device copy under ['gpu']. *)
Theorem on_gpu_length_one (func : kernel) (args : list value) (kwargs : dict)
    (sp : MemorySpace) (output : value) :
  dict_get "return_space" kwargs = Some (VStr (space_name sp)) ->
  run func (map to_cupy args) (dict_remove "return_space" kwargs) = Ok output ->
  py_len output = Ok 1 ->
  outcome (on_gpu func args kwargs) = Ok (to_space sp output) /\
  events (on_gpu func args kwargs) =
    copies_to_cupy ConvertingArgToCupy (name func) 0 args
      ++ LogDebug (name func) (ReturnSpaceRequested (VStr (space_name sp)))
      :: Call (map to_cupy args) (dict_remove "return_space" kwargs)
      :: whole_copy (name func) sp output /\
  (isinstance_ndarray output = false ->
   outcome (on_gpu func args kwargs) = Ok output) /\
  (forall a, output = VArr a ->
   outcome (on_gpu func args kwargs) =
   Ok (VArr {| space := sp; shape := shape a; elems := elems a |})).
Proof.
  intros Hget Hrun Hlen.
  rewrite (on_gpu_returning _ _ _ _ Hget Hrun), normalise_eq, Hlen.
  cbn [Nat.eqb orb events outcome fst snd].
  repeat split.
  - intros Harr. now rewrite to_space_not_array.
  - intros a ->. now rewrite to_space_array.
Qed.

Lemma on_gpu_length_one_witness :
  outcome (on_gpu (kernel_const (VArr {| space := Host; shape := [1]; elems := [7%Z] |}))
                  [] [("return_space", VStr "gpu")])
  = Ok (VArr {| space := Device; shape := [1]; elems := [7%Z] |}) /\
  outcome (on_gpu (kernel_const (VList [VArr host_buf]))
                  [] [("return_space", VStr "gpu")])
  = Ok (VList [VArr host_buf]).
Proof.
  split.
  - apply (on_gpu_length_one
             (kernel_const (VArr {| space := Host; shape := [1]; elems := [7%Z] |}))
             [] [("return_space", VStr "gpu")] Device
             (output := VArr {| space := Host; shape := [1]; elems := [7%Z] |}));
      reflexivity.
  - apply (on_gpu_length_one (kernel_const (VList [VArr host_buf]))
             [] [("return_space", VStr "gpu")] Device
             (output := VList [VArr host_buf]));
      reflexivity.
Defined.

(** C6: a tuple or list output whose length is not 1 (so any multi-element
    sequence) comes back, under [return_space] ['gpu'] or ['cpu'], as a list
    of the same length in the same order: at each position an item that is
    not an array is the item the kernel returned, and an array is that array
    in the requested space. *)
Theorem on_gpu_sequence (func : kernel) (args : list value) (kwargs : dict)
    (sp : MemorySpace) (output : value) (items : list value) :
  dict_get "return_space" kwargs = Some (VStr (space_name sp)) ->
  run func (map to_cupy args) (dict_remove "return_space" kwargs) = Ok output ->
  output = VTuple items \/ output = VList items ->
  List.length items <> 1 ->
  exists new_items,
    outcome (on_gpu func args kwargs) = Ok (VList new_items) /\
    List.length new_items = List.length items /\
    forall i v, nth_error items i = Some v ->
      (isinstance_ndarray v = false -> nth_error new_items i = Some v) /\
      (forall a, v = VArr a ->
         nth_error new_items i =
         Some (VArr {| space := sp; shape := shape a; elems := elems a |})).
Proof.
  intros Hget Hrun Hseq Hlen.
  exists (map (to_space sp) items).
  rewrite (on_gpu_returning _ _ _ _ Hget Hrun), normalise_eq.
  assert (Hn : py_len output = Ok (List.length items)) by (destruct Hseq; subst; reflexivity).
  assert (Hit : py_iter output = Ok items) by (destruct Hseq; subst; reflexivity).
  assert (Harr : isinstance_ndarray output = false) by (destruct Hseq; subst; reflexivity).
  rewrite Hn, Hit, Harr.
  apply Nat.eqb_neq in Hlen. rewrite Hlen. cbn [orb outcome snd].
  split; [reflexivity|]. split; [apply length_map|].
  intros i v Hnth. split.
  - intros Hv. rewrite nth_error_map, Hnth. cbn. now rewrite to_space_not_array.
  - intros a ->. rewrite nth_error_map, Hnth. cbn. now rewrite to_space_array.
Qed.

Lemma on_gpu_sequence_witness :
  exists new_items,
    outcome (on_gpu (kernel_const (VTuple [VArr host_buf; VFloat (float_lit 3 0)]))
                    [] [("return_space", VStr "gpu")])
    = Ok (VList new_items) /\
    List.length new_items = 2 /\
    nth_error new_items 0 = Some (VArr (cp_asarray host_buf)) /\
    nth_error new_items 1 = Some (VFloat (float_lit 3 0)).
Proof.
  destruct (on_gpu_sequence
              (kernel_const (VTuple [VArr host_buf; VFloat (float_lit 3 0)]))
              [] [("return_space", VStr "gpu")] Device
              (output := VTuple [VArr host_buf; VFloat (float_lit 3 0)])
              (items := [VArr host_buf; VFloat (float_lit 3 0)]))
    as (new_items & Hout & Hlen & Hitems);
    [reflexivity | reflexivity | now left | discriminate |].
  exists new_items. split; [exact Hout|]. split; [exact Hlen|]. split.
  - apply (Hitems 0 (VArr host_buf)); reflexivity.
  - apply (Hitems 1 (VFloat (float_lit 3 0))); reflexivity.
Defined.

(** ** Where the buffers of a result live *)

Lemma to_space_space (sp : MemorySpace) (v : value) (b : ndarray) :
  to_space sp v = VArr b -> space b = sp.
Proof.
  destruct v; try (destruct sp; discriminate).
  rewrite to_space_array. intros H. inversion H. reflexivity.
Qed.

Lemma buffers_map_to_space (sp : MemorySpace) (items : list value) (b : ndarray) :
  In b (buffers (VList (map (to_space sp) items))) -> space b = sp.
Proof.
  cbn [buffers]. rewrite in_flat_map. intros (x & Hx & Hb).
  apply in_map_iff in Hx. destruct Hx as (v & Hv & _).
  destruct x; try contradiction. destruct Hb as [<-|[]].
  exact (to_space_space _ _ Hv).
Qed.

(** C1, as stated, fails: a kernel that returns a one-item list holding a
    host array gets that list back under [return_space='gpu'], host array
    included. *)
Lemma on_gpu_one_item_list_stays_host :
  ~ placed Device
      (on_gpu (kernel_const (VList [VArr host_buf])) [] [("return_space", VStr "gpu")]).
Proof.
  intros H.
  specialize (H (VList [VArr host_buf]) eq_refl host_buf (or_introl eq_refl)).
  discriminate H.
Qed.

(** C1, amended: with [return_space] ['gpu'] (['cpu']), when the kernel's
    output is sized and is either an array or of a length other than 1, the
    call returns a result, and every buffer of that result (the result itself,
    or an array among its items) is a cupy (numpy) array. *)
Theorem on_gpu_result_space (func : kernel) (args : list value) (kwargs : dict)
    (sp : MemorySpace) (output : value) (n : nat) :
  dict_get "return_space" kwargs = Some (VStr (space_name sp)) ->
  run func (map to_cupy args) (dict_remove "return_space" kwargs) = Ok output ->
  py_len output = Ok n ->
  (n = 1 -> isinstance_ndarray output = true) ->
  (exists r, outcome (on_gpu func args kwargs) = Ok r) /\
  placed sp (on_gpu func args kwargs).
Proof.
  intros Hget Hrun Hlen Hone. unfold placed.
  rewrite (on_gpu_returning _ _ _ _ Hget Hrun), normalise_eq, Hlen.
  destruct (isinstance_ndarray output) eqn:Harr.
  - rewrite orb_true_r. cbn [outcome snd]. split; [eauto|].
    intros r Hr a Hin. inversion Hr; subst r; clear Hr.
    destruct output; try discriminate Harr.
    rewrite to_space_array in Hin. destruct Hin as [<-|[]]. reflexivity.
  - destruct (Nat.eqb_spec n 1) as [->|Hn]; [specialize (Hone eq_refl); discriminate|].
    destruct (py_iter_sized _ Hlen) as (items & Hit). rewrite Hit.
    cbn [orb outcome snd]. split; [eauto|].
    intros r Hr a Hin. inversion Hr; subst r; clear Hr.
    exact (buffers_map_to_space _ _ _ Hin).
Qed.

Lemma on_gpu_result_space_witness :
  (exists r,
     outcome (on_gpu (kernel_const (VTuple [VArr device_buf; VInt 1; VArr host_buf]))
                     [] [("return_space", VStr "cpu")]) = Ok r) /\
  placed Host
    (on_gpu (kernel_const (VTuple [VArr device_buf; VInt 1; VArr host_buf]))
            [] [("return_space", VStr "cpu")]).
Proof.
  apply (on_gpu_result_space
           (kernel_const (VTuple [VArr device_buf; VInt 1; VArr host_buf]))
           [] [("return_space", VStr "cpu")] Host
           (output := VTuple [VArr device_buf; VInt 1; VArr host_buf]) (n := 3));
    [reflexivity | reflexivity | reflexivity | discriminate].
Defined.

(** ** Arguments *)

(** A call of the kernel comes after the argument copies and, at most, the
    debug line about [return_space]. *)
Lemma on_gpu_calls (func : kernel) (args : list value) (kwargs : dict)
    (a : list value) (k : dict) :
  In (Call a k) (events (on_gpu func args kwargs)) ->
  a = map to_cupy args /\ k = dict_remove "return_space" kwargs /\
  exists dbg t,
    events (on_gpu func args kwargs) =
    copies_to_cupy ConvertingArgToCupy (name func) 0 args ++ dbg ++ Call a k :: t /\
    forall e, In e dbg -> exists v, e = LogDebug (name func) (ReturnSpaceRequested v).
Proof.
  rewrite on_gpu_eq. cbv zeta.
  destruct (dict_get "return_space" kwargs) as [v|] eqn:Hget.
  - destruct (eq_str v "cpu" || eq_str v "gpu") eqn:Hv; cbn [events fst].
    + intros Hin. apply in_app_or in Hin. destruct Hin as [Hin|Hin].
      { exfalso. exact (copies_to_cupy_no_call _ _ _ _ _ _ Hin). }
      destruct Hin as [Hin|[Hin|Hin]]; [discriminate| |].
      * inversion Hin; subst. split; [reflexivity|]. split; [reflexivity|].
        exists [LogDebug (name func) (ReturnSpaceRequested v)]. eexists.
        split; [reflexivity|]. intros e [<-|[]]. eauto.
      * exfalso. revert Hin. unfold after_call.
        destruct (run func (map to_cupy args) (dict_remove "return_space" kwargs))
          as [output|e]; [|intros []].
        apply orb_true_iff in Hv. rewrite !eq_str_true_iff in Hv.
        assert (Hsp : exists sp, v = VStr (space_name sp))
          by (destruct Hv as [->| ->]; [exists Host|exists Device]; reflexivity).
        destruct Hsp as (sp & ->). rewrite normalise_eq.
        destruct (py_len output) as [n|e]; [|intros []].
        destruct ((n =? 1)%nat || isinstance_ndarray output).
        { cbn [fst]. destruct sp, output; cbn [whole_copy]; try (intros []);
            match goal with |- context [if ?b then _ else _] => destruct b end;
            simpl; intuition discriminate. }
        destruct (py_iter output) as [items|e]; [|intros []].
        cbn [fst]. destruct sp; cbn [item_copies].
        -- clear. generalize 0. induction items as [|x items IH]; intros idx; simpl; [tauto|].
           destruct x; try apply IH. intros H. apply in_app_or in H.
           destruct H as [H|H]; [|exact (IH _ H)].
           destruct (is_cupy a0); simpl in H; intuition discriminate.
        -- apply copies_to_cupy_no_call.
    + intros Hin. apply in_app_or in Hin. destruct Hin as [Hin|Hin].
      * exfalso. exact (copies_to_cupy_no_call _ _ _ _ _ _ Hin).
      * simpl in Hin. intuition discriminate.
  - cbn [events fst]. intros Hin. apply in_app_or in Hin. destruct Hin as [Hin|Hin].
    + exfalso. exact (copies_to_cupy_no_call _ _ _ _ _ _ Hin).
    + destruct Hin as [Hin|[]]. inversion Hin; subst.
      rewrite (dict_remove_absent _ _ Hget).
      split; [reflexivity|]. split; [reflexivity|].
      exists [], []. split; [reflexivity|]. intros e [].
Qed.

Lemma copies_to_cupy_complete msg fn l (h : ndarray) :
  In (VArr h) l -> is_numpy h = true ->
  forall idx, In (Asarray h) (copies_to_cupy msg fn idx l).
Proof.
  intros Hin Hnp. induction l as [|v l IH]; intros idx; [contradiction|].
  destruct Hin as [->|Hin].
  - simpl. rewrite Hnp. simpl. auto.
  - specialize (IH Hin (S idx)). destruct v; simpl; auto.
    apply in_or_app. now right.
Qed.

(** C4: whenever the kernel is called, it is called on as many positional
    arguments as the caller gave; a numpy array is replaced by its cupy copy,
    made before the call; any other argument (a cupy array, a value that is
    no array) is passed as it is, and nothing is copied or logged for it;
    every keyword argument but [return_space] reaches the kernel unchanged,
    and [return_space] does not reach it. *)
Theorem on_gpu_arguments (func : kernel) (args : list value) (kwargs : dict)
    (a : list value) (k : dict) :
  In (Call a k) (events (on_gpu func args kwargs)) ->
  List.length a = List.length args /\
  (forall i h, nth_error args i = Some (VArr h) -> is_numpy h = true ->
     nth_error a i = Some (VArr (cp_asarray h)) /\ is_cupy (cp_asarray h) = true) /\
  (forall i v, nth_error args i = Some v -> isinstance_np v = false ->
     nth_error a i = Some v) /\
  (forall key, key <> "return_space" -> dict_get key k = dict_get key kwargs) /\
  dict_contains "return_space" k = false /\
  exists before after,
    events (on_gpu func args kwargs) = before ++ Call a k :: after /\
    (forall h, In (VArr h) args -> is_numpy h = true -> In (Asarray h) before) /\
    (forall h, In (Asarray h) before -> is_numpy h = true /\ In (VArr h) args) /\
    (forall i v, nth_error args i = Some v -> isinstance_np v = false ->
       ~ In (LogInfo (name func) (ConvertingArgToCupy i)) before).
Proof.
  intros Hin.
  destruct (on_gpu_calls _ _ _ _ _ Hin) as (-> & -> & dbg & t & Hev & Hdbg).
  split; [apply length_map|].
  split.
  { intros i h Hnth Hnp. rewrite nth_error_map, Hnth. cbn. now rewrite Hnp. }
  split.
  { intros i v Hnth Hv. rewrite nth_error_map, Hnth. cbn.
    destruct v; try reflexivity. cbn in Hv |- *. now rewrite Hv. }
  split.
  { intros key Hkey. now apply dict_get_remove_other. }
  split.
  { unfold dict_contains. now rewrite dict_get_remove_same. }
  exists (copies_to_cupy ConvertingArgToCupy (name func) 0 args ++ dbg), t.
  split; [now rewrite <- app_assoc|].
  split.
  { intros h Hh Hnp. apply in_or_app. left. now apply copies_to_cupy_complete. }
  split.
  { intros h Hh. apply in_app_or in Hh. destruct Hh as [Hh|Hh].
    - exact (copies_to_cupy_numpy _ _ _ _ _ Hh).
    - destruct (Hdbg _ Hh) as (v & Hv). discriminate. }
  intros i v Hnth Hv Hlog. apply in_app_or in Hlog. destruct Hlog as [Hlog|Hlog].
  - apply copies_to_cupy_index in Hlog; [|intros ? ? H; now inversion H].
    destruct Hlog as (h & _ & Hnth' & Hnp).
    rewrite Nat.sub_0_r, Hnth in Hnth'. inversion Hnth'; subst.
    cbn in Hv. congruence.
  - destruct (Hdbg _ Hlog) as (v' & Hv'). discriminate.
Qed.

Lemma on_gpu_arguments_witness :
  In (Call [VArr (cp_asarray host_buf); VArr device_buf; VInt 2] [("axis", VInt 0)])
     (events (on_gpu kernel_first [VArr host_buf; VArr device_buf; VInt 2]
                     [("return_space", VStr "cpu"); ("axis", VInt 0)])) /\
  nth_error [VArr (cp_asarray host_buf); VArr device_buf; VInt 2] 1
  = Some (VArr device_buf).
Proof.
  assert (Hin : In (Call [VArr (cp_asarray host_buf); VArr device_buf; VInt 2]
                         [("axis", VInt 0)])
                   (events (on_gpu kernel_first [VArr host_buf; VArr device_buf; VInt 2]
                                   [("return_space", VStr "cpu"); ("axis", VInt 0)])))
    by (vm_compute; tauto).
  split; [exact Hin|].
  destruct (on_gpu_arguments _ _ _ _ _ Hin) as (_ & _ & Hsame & _).
  apply (Hsame 1 (VArr device_buf)); reflexivity.
Defined.

(** With no [return_space], or an accepted one, the kernel is called. *)
Lemma on_gpu_calls_kernel (func : kernel) (args : list value) (kwargs : dict) :
  dict_get "return_space" kwargs = None \/
  (exists sp, dict_get "return_space" kwargs = Some (VStr (space_name sp))) ->
  In (Call (map to_cupy args) (dict_remove "return_space" kwargs))
     (events (on_gpu func args kwargs)).
Proof.
  rewrite on_gpu_eq. cbv zeta. intros [Hget|(sp & Hget)]; rewrite Hget.
  - rewrite (dict_remove_absent _ _ Hget). apply in_or_app. right. now left.
  - rewrite return_space_accepted. cbn [events fst].
    apply in_or_app. right. right. now left.
Qed.

(** ** Claims about [datwrapper] *)

Lemma datwrapper_data_array_eq (func : kernel) (d : DataArray) (rest : list value)
    (kwargs : dict) :
  datwrapper func (VDataArray d :: rest) kwargs =
  let kwargs' := dict_set "metadata" (VDict (make_metadata d)) kwargs in
  ([Call (VArr (data d) :: rest) kwargs'], run func (VArr (data d) :: rest) kwargs').
Proof.
  unfold datwrapper, getitem, call, lift, ret. cbn [nth_error setitem bind fst snd app].
  destruct (run func _ _); reflexivity.
Qed.

Lemma make_metadata_get (d : DataArray) (k : string) :
  dict_wf (attrs d) ->
  dict_get k (make_metadata d) =
  if String.eqb k "f0" then
    Some (VFloat (float_mul (freq_units (frequency d)) (freq_val_start (frequency d))))
  else if String.eqb k "df" then
    Some (VFloat (float_mul (freq_units (frequency d)) (freq_val_step (frequency d))))
  else if String.eqb k "t0" then Some (VFloat (time_start (time d)))
  else if String.eqb k "dt" then
    Some (VFloat (float_mul (time_units (time d)) (time_val_step (time d))))
  else dict_get k (attrs d).
Proof.
  intros Hwf. unfold make_metadata. cbv zeta.
  destruct (String.eqb_spec k "f0") as [->|Hf0]; [apply dict_get_set_same|].
  rewrite dict_get_set_other by assumption.
  destruct (String.eqb_spec k "df") as [->|Hdf]; [apply dict_get_set_same|].
  rewrite dict_get_set_other by assumption.
  destruct (String.eqb_spec k "t0") as [->|Ht0]; [apply dict_get_set_same|].
  rewrite dict_get_set_other by assumption.
  destruct (String.eqb_spec k "dt") as [->|Hdt]; [apply dict_get_set_same|].
  rewrite dict_get_set_other by assumption.
  rewrite (dict_get_attrs_loop _ Hwf). now destruct (dict_get k (attrs d)).
Qed.

(** C2, as stated, fails: when [d.attrs] has an entry named [dt], the
    [metadata] the kernel receives binds [dt] to the derived value, not to
    the attribute. *)
Lemma datwrapper_derived_key_replaces_attr :
  dict_wf (attrs clashing_data_array) /\
  calls_with_metadata
    (datwrapper kernel_first [VDataArray clashing_data_array] [])
    [("dt", VFloat (float_lit 0x10c6f7a0b5ed8d (-72)));
     ("t0", VFloat (float_lit 100 0));
     ("df", VFloat (float_lit 500000 0));
     ("f0", VFloat (float_lit 1000000000 0))] /\
  ~ contains_attrs clashing_data_array
      [("dt", VFloat (float_lit 0x10c6f7a0b5ed8d (-72)));
       ("t0", VFloat (float_lit 100 0));
       ("df", VFloat (float_lit 500000 0));
       ("f0", VFloat (float_lit 1000000000 0))].
Proof.
  split; [|split].
  - repeat constructor. simpl. tauto.
  - eexists _, _. split; [left; reflexivity|]. vm_compute. reflexivity.
  - intros H. specialize (H "dt" (VInt 7) eq_refl). vm_compute in H. discriminate H.
Qed.

(** C2, amended: for a DataArray [d] as first positional argument, the kernel
    is called once, on [d.data] followed by the other positional arguments,
    with the caller's keyword arguments and [metadata] bound to a dict in
    which [dt = d.time.units * d.time.val_step], [t0 = d.time.time_start],
    [df = d.frequency.units * d.frequency.val_step],
    [f0 = d.frequency.units * d.frequency.val_start], and every other key is
    bound exactly as in [d.attrs]; an entry of [d.attrs] under one of the
    four derived names is replaced by the derived value. *)
Theorem datwrapper_data_array (func : kernel) (d : DataArray) (rest : list value)
    (kwargs : dict) :
  dict_wf (attrs d) ->
  exists md kwargs',
    datwrapper func (VDataArray d :: rest) kwargs =
      ([Call (VArr (data d) :: rest) kwargs'], run func (VArr (data d) :: rest) kwargs') /\
    dict_get "metadata" kwargs' = Some (VDict md) /\
    (forall k, k <> "metadata" -> dict_get k kwargs' = dict_get k kwargs) /\
    dict_get "dt" md =
      Some (VFloat (float_mul (time_units (time d)) (time_val_step (time d)))) /\
    dict_get "t0" md = Some (VFloat (time_start (time d))) /\
    dict_get "df" md =
      Some (VFloat (float_mul (freq_units (frequency d)) (freq_val_step (frequency d)))) /\
    dict_get "f0" md =
      Some (VFloat (float_mul (freq_units (frequency d)) (freq_val_start (frequency d)))) /\
    (forall k, derived_key k = false -> dict_get k md = dict_get k (attrs d)).
Proof.
  intros Hwf.
  exists (make_metadata d), (dict_set "metadata" (VDict (make_metadata d)) kwargs).
  split; [apply datwrapper_data_array_eq|].
  split; [apply dict_get_set_same|].
  split; [intros k Hk; now apply dict_get_set_other|].
  repeat split; try (rewrite (make_metadata_get _ _ Hwf); reflexivity).
  intros k Hk. rewrite (make_metadata_get _ _ Hwf).
  unfold derived_key in Hk. repeat (apply orb_false_iff in Hk; destruct Hk as [Hk ?]).
  now repeat match goal with H : String.eqb _ _ = false |- _ => rewrite H; clear H end.
Qed.

Lemma datwrapper_data_array_witness :
  dict_wf (attrs example_data_array) /\
  exists md,
    calls_with_metadata (datwrapper kernel_first [VDataArray example_data_array] []) md /\
    dict_get "dt" md = Some (VFloat (float_lit 0x10c6f7a0b5ed8d (-72))) /\
    dict_get "t0" md = Some (VFloat (float_lit 100 0)) /\
    dict_get "df" md = Some (VFloat (float_lit 500000 0)) /\
    dict_get "f0" md = Some (VFloat (float_lit 1000000000 0)) /\
    dict_get "source" md = Some (VStr "Voyager1").
Proof.
  assert (Hwf : dict_wf (attrs example_data_array)).
  { repeat constructor; simpl; intuition discriminate. }
  split; [exact Hwf|].
  destruct (datwrapper_data_array kernel_first example_data_array [] [] Hwf)
    as (md & kwargs' & Hcall & Hmd & _ & Hdt & Ht0 & Hdf & Hf0 & Hattrs).
  exists md. split.
  - exists [VArr (data example_data_array)], kwargs'. split; [|exact Hmd].
    unfold events. rewrite Hcall. now left.
  - split; [exact Hdt|]. split; [exact Ht0|]. split; [exact Hdf|]. split; [exact Hf0|].
    rewrite (Hattrs "source" eq_refl). reflexivity.
Defined.

(** C7: when the first positional argument is not a DataArray, the kernel is
    called once, on exactly the positional and keyword arguments of the
    caller, and the call returns or raises what the kernel does; no
    [metadata] keyword is added, so a kernel that raises only when it is
    given [metadata] returns as long as the caller passed none. *)
Theorem datwrapper_other_first_argument (func : kernel) (a0 : value)
    (rest : list value) (kwargs : dict) :
  isinstance_DataArray a0 = false ->
  datwrapper func (a0 :: rest) kwargs =
    ([Call (a0 :: rest) kwargs], run func (a0 :: rest) kwargs) /\
  (dict_contains "metadata" kwargs = false ->
   (forall a k, dict_contains "metadata" k = false -> exists v, run func a k = Ok v) ->
   exists v, outcome (datwrapper func (a0 :: rest) kwargs) = Ok v).
Proof.
  intros Ha0.
  assert (Heq : datwrapper func (a0 :: rest) kwargs =
                ([Call (a0 :: rest) kwargs], run func (a0 :: rest) kwargs)).
  { unfold datwrapper, getitem, call, lift, ret. cbn [nth_error bind].
    destruct a0; try discriminate Ha0; cbn [bind fst snd app];
      destruct (run func _ _); reflexivity. }
  split; [exact Heq|].
  intros Hmeta Hfunc. rewrite Heq. exact (Hfunc _ _ Hmeta).
Qed.

Lemma datwrapper_other_first_argument_witness :
  datwrapper kernel_no_metadata [VArr host_buf; VInt 3] [("axis", VInt 0)] =
    ([Call [VArr host_buf; VInt 3] [("axis", VInt 0)]], Ok VNone) /\
  exists v,
    outcome (datwrapper kernel_no_metadata [VArr host_buf; VInt 3] [("axis", VInt 0)])
    = Ok v.
Proof.
  destruct (datwrapper_other_first_argument kernel_no_metadata (VArr host_buf)
              [VInt 3] [("axis", VInt 0)] eq_refl) as [Heq Hok].
  split; [exact Heq|].
  apply Hok; [reflexivity|].
  intros a k Hk. exists VNone. unfold kernel_no_metadata. cbn [run]. now rewrite Hk.
Defined.

(** C10: called with no positional argument, the decorated function raises
    [IndexError] at [args[0]]; the trace is empty, so the kernel is not
    called, whatever it would have done with the keyword arguments alone. *)
Theorem datwrapper_no_positional_argument (func : kernel) (kwargs : dict) :
  outcome (datwrapper func [] kwargs) = Raise IndexError /\
  events (datwrapper func [] kwargs) = [] /\
  forall a k, ~ In (Call a k) (events (datwrapper func [] kwargs)).
Proof.
  repeat split. intros a k [].
Qed.

(** * Further properties of the decorators *)

(** ** Readings of a trace *)

Lemma count_calls_app (t1 t2 : trace) :
  count_calls (t1 ++ t2) = count_calls t1 + count_calls t2.
Proof.
  induction t1 as [|e t1 IH]; [reflexivity|].
  destruct e; simpl; rewrite IH; reflexivity.
Qed.

Lemma copied_to_device_app (t1 t2 : trace) :
  copied_to_device (t1 ++ t2) = copied_to_device t1 ++ copied_to_device t2.
Proof.
  induction t1 as [|e t1 IH]; [reflexivity|].
  destruct e; simpl; rewrite IH; reflexivity.
Qed.

Lemma count_calls_copies_to_cupy msg fn l :
  forall idx, count_calls (copies_to_cupy msg fn idx l) = 0.
Proof.
  induction l as [|v l IH]; intros idx; [reflexivity|].
  destruct v; simpl; try apply IH.
  rewrite count_calls_app, IH. destruct (is_numpy a); reflexivity.
Qed.

Lemma count_calls_copies_to_numpy fn l :
  forall idx, count_calls (copies_to_numpy fn idx l) = 0.
Proof.
  induction l as [|v l IH]; intros idx; [reflexivity|].
  destruct v; simpl; try apply IH.
  rewrite count_calls_app, IH. destruct (is_cupy a); reflexivity.
Qed.

Lemma copied_copies_to_cupy msg fn l :
  forall idx, copied_to_device (copies_to_cupy msg fn idx l) = numpy_arrays l.
Proof.
  induction l as [|v l IH]; intros idx; [reflexivity|].
  destruct v; simpl; try apply IH.
  rewrite copied_to_device_app, IH. destruct (is_numpy a); reflexivity.
Qed.

Lemma accepted_space (v : value) :
  eq_str v "cpu" || eq_str v "gpu" = true -> exists sp, v = VStr (space_name sp).
Proof.
  intros H. apply orb_true_iff in H. rewrite !eq_str_true_iff in H.
  destruct H as [->| ->]; [exists Host|exists Device]; reflexivity.
Qed.

(** The events of result normalisation, for an accepted [return_space]. *)
Lemma normalise_events (func : kernel) (sp : MemorySpace) (output : value) :
  events (normalise func (VStr (space_name sp)) output) = [] \/
  events (normalise func (VStr (space_name sp)) output) = whole_copy (name func) sp output \/
  exists items,
    py_iter output = Ok items /\
    events (normalise func (VStr (space_name sp)) output) = item_copies (name func) sp items.
Proof.
  rewrite normalise_eq.
  destruct (py_len output) as [n|e]; [|now left].
  destruct ((n =? 1)%nat || isinstance_ndarray output); [right; now left|].
  destruct (py_iter output) as [items|e]; [|now left].
  right. right. exists items. split; reflexivity.
Qed.

Lemma count_calls_normalise (func : kernel) (sp : MemorySpace) (output : value) :
  count_calls (events (normalise func (VStr (space_name sp)) output)) = 0.
Proof.
  destruct (normalise_events func sp output) as [H|[H|(items & _ & H)]]; rewrite H.
  - reflexivity.
  - destruct sp, output; try reflexivity; cbn [whole_copy];
      match goal with |- context [if ?b then _ else _] => destruct b end; reflexivity.
  - destruct sp; cbn [item_copies].
    + apply count_calls_copies_to_numpy.
    + apply count_calls_copies_to_cupy.
Qed.

(** ** How a call of [on_gpu(func)] ends *)

(** X1: an exception of the kernel goes through [on_gpu] as it is.  When
    [return_space] is absent or accepted and the kernel raises [e] on the
    converted arguments, the decorated call raises [e], and the kernel's call
    is the last event: the result is not normalised. *)
Theorem on_gpu_kernel_exception (func : kernel) (args : list value) (kwargs : dict)
    (e : exn) :
  return_space_ok kwargs = true ->
  run func (map to_cupy args) (dict_remove "return_space" kwargs) = Raise e ->
  outcome (on_gpu func args kwargs) = Raise e /\
  exists before,
    events (on_gpu func args kwargs) =
    before ++ [Call (map to_cupy args) (dict_remove "return_space" kwargs)].
Proof.
  unfold return_space_ok. intros Hok Hrun. rewrite on_gpu_eq. cbv zeta.
  destruct (dict_get "return_space" kwargs) as [v|] eqn:Hget.
  - rewrite Hok, Hrun. cbn [after_call events outcome fst snd]. split; [reflexivity|].
    exists (copies_to_cupy ConvertingArgToCupy (name func) 0 args
              ++ [LogDebug (name func) (ReturnSpaceRequested v)]).
    now rewrite <- app_assoc.
  - rewrite (dict_remove_absent _ _ Hget) in Hrun. rewrite Hrun.
    rewrite (dict_remove_absent _ _ Hget). cbn [events outcome fst snd]. eauto.
Qed.

Lemma on_gpu_kernel_exception_witness :
  outcome (on_gpu kernel_first [] [("return_space", VStr "gpu")])
  = Raise (OtherError "TypeError").
Proof.
  apply (on_gpu_kernel_exception kernel_first [] [("return_space", VStr "gpu")]
           (e := OtherError "TypeError")); reflexivity.
Defined.

(** X2: a decorated call runs the kernel exactly once when [return_space] is
    absent or accepted, and not at all otherwise; it never runs it twice. *)
Theorem on_gpu_calls_once (func : kernel) (args : list value) (kwargs : dict) :
  count_calls (events (on_gpu func args kwargs)) =
  if return_space_ok kwargs then 1 else 0.
Proof.
  unfold return_space_ok. rewrite on_gpu_eq. cbv zeta.
  destruct (dict_get "return_space" kwargs) as [v|].
  - destruct (eq_str v "cpu" || eq_str v "gpu") eqn:Hv; cbn [events fst];
      rewrite count_calls_app, count_calls_copies_to_cupy; [|reflexivity].
    cbn [count_calls Nat.add]. f_equal.
    destruct (accepted_space _ Hv) as (sp & ->).
    unfold after_call.
    destruct (run func (map to_cupy args) (dict_remove "return_space" kwargs));
      [apply count_calls_normalise|reflexivity].
  - cbn [events fst]. now rewrite count_calls_app, count_calls_copies_to_cupy.
Qed.

(** X3: a rejected [return_space] is found out only after the positional
    arguments were converted: the call raises (for a value that is no array,
    the [AssertionError] of the [assert]), and by then every numpy array among
    the arguments has been copied to the device, once each and in argument
    order. *)
Theorem on_gpu_rejects_after_copies (func : kernel) (args : list value) (kwargs : dict) :
  return_space_ok kwargs = false ->
  (exists e, outcome (on_gpu func args kwargs) = Raise e) /\
  (forall v, dict_get "return_space" kwargs = Some v -> isinstance_ndarray v = false ->
   outcome (on_gpu func args kwargs) = Raise AssertionError) /\
  copied_to_device (events (on_gpu func args kwargs)) = numpy_arrays args.
Proof.
  unfold return_space_ok. intros Hok. rewrite on_gpu_eq. cbv zeta.
  destruct (dict_get "return_space" kwargs) as [v|]; [|discriminate].
  rewrite Hok. cbn [events outcome fst snd]. split; [eauto|]. split.
  - intros v' Hv' Harr. inversion Hv'; subst v'. f_equal. apply rejection_not_array.
    destruct v; try exact I. unfold isinstance_ndarray in Harr. cbn in Harr.
    unfold is_numpy, is_cupy in Harr. destruct (space a); discriminate.
  - rewrite copied_to_device_app, copied_copies_to_cupy. cbn. apply app_nil_r.
Qed.

Lemma on_gpu_rejects_after_copies_witness :
  outcome (on_gpu kernel_first [VArr host_buf; VArr device_buf; VArr host_buf]
                  [("return_space", VStr "GPU")])
  = Raise AssertionError /\
  copied_to_device
    (events (on_gpu kernel_first [VArr host_buf; VArr device_buf; VArr host_buf]
                    [("return_space", VStr "GPU")]))
  = [host_buf; host_buf].
Proof.
  destruct (on_gpu_rejects_after_copies kernel_first
              [VArr host_buf; VArr device_buf; VArr host_buf]
              [("return_space", VStr "GPU")])
    as (_ & Hassert & Hcopies); [reflexivity|].
  split; [apply (Hassert (VStr "GPU")); reflexivity | exact Hcopies].
Defined.

Lemma no_asnumpy_copies_to_cupy msg fn l :
  forall idx a, ~ In (Asnumpy a) (copies_to_cupy msg fn idx l).
Proof.
  induction l as [|v l IH]; intros idx a; simpl; [tauto|].
  destruct v; try apply IH.
  intros H. apply in_app_or in H. destruct H as [H|H]; [|exact (IH _ _ H)].
  destruct (is_numpy a0); simpl in H; intuition discriminate.
Qed.

(** X4: nothing is copied back to the host unless [return_space='cpu'] asks
    for it: with [return_space] absent, ['gpu'] or rejected, the trace holds
    no [cp.asnumpy]. *)
Theorem on_gpu_asnumpy_only_for_cpu (func : kernel) (args : list value) (kwargs : dict) :
  dict_get "return_space" kwargs <> Some (VStr "cpu") ->
  forall a, ~ In (Asnumpy a) (events (on_gpu func args kwargs)).
Proof.
  intros Hcpu a. rewrite on_gpu_eq. cbv zeta.
  destruct (dict_get "return_space" kwargs) as [v|].
  - destruct (eq_str v "cpu" || eq_str v "gpu") eqn:Hv; cbn [events fst];
      intros Hin; apply in_app_or in Hin; destruct Hin as [Hin|Hin];
      try exact (no_asnumpy_copies_to_cupy _ _ _ _ _ Hin).
    + destruct (accepted_space _ Hv) as ([|] & ->); [exfalso; apply Hcpu; reflexivity|].
      destruct Hin as [Hin|[Hin|Hin]]; try discriminate.
      unfold after_call in Hin.
      destruct (run func (map to_cupy args) (dict_remove "return_space" kwargs))
        as [output|e]; [|contradiction].
      destruct (normalise_events func Device output) as [H|[H|(items & _ & H)]];
        rewrite H in Hin.
      * contradiction.
      * destruct output; try contradiction. cbn [whole_copy] in Hin.
        destruct (is_numpy a0); simpl in Hin; intuition discriminate.
      * exact (no_asnumpy_copies_to_cupy _ _ _ _ _ Hin).
    + simpl in Hin. intuition discriminate.
  - cbn [events fst]. intros Hin. apply in_app_or in Hin. destruct Hin as [Hin|Hin].
    + exact (no_asnumpy_copies_to_cupy _ _ _ _ _ Hin).
    + simpl in Hin. intuition discriminate.
Qed.

Lemma on_gpu_asnumpy_only_for_cpu_witness :
  dict_get "return_space" [("return_space", VStr "gpu")] <> Some (VStr "cpu") /\
  ~ In (Asnumpy device_buf)
       (events (on_gpu (kernel_const (VTuple [VArr device_buf; VArr host_buf]))
                       [VArr host_buf] [("return_space", VStr "gpu")])).
Proof.
  split; [discriminate|].
  apply (on_gpu_asnumpy_only_for_cpu
           (kernel_const (VTuple [VArr device_buf; VArr host_buf]))
           [VArr host_buf] [("return_space", VStr "gpu")]).
  discriminate.
Defined.

(** ** Outputs that need no conversion, and outputs that are no sequences *)

Lemma to_space_placed (sp : MemorySpace) (a : ndarray) :
  space a = sp -> to_space sp (VArr a) = VArr a.
Proof.
  intros <-. destruct a as [[] sh el]; reflexivity.
Qed.

Lemma map_to_space_placed (sp : MemorySpace) (items : list value) :
  (forall a, In (VArr a) items -> space a = sp) ->
  map (to_space sp) items = items.
Proof.
  induction items as [|v items IH]; intros Hsp; [reflexivity|].
  cbn [map]. rewrite IH by (intros a Ha; apply Hsp; now right). f_equal.
  destruct v; try (destruct sp; reflexivity).
  apply to_space_placed, Hsp. now left.
Qed.

Lemma copies_to_cupy_placed msg fn (items : list value) :
  (forall a, In (VArr a) items -> space a = Device) ->
  forall idx, copies_to_cupy msg fn idx items = [].
Proof.
  induction items as [|v items IH]; intros Hsp idx; [reflexivity|].
  assert (Hrest : forall i, copies_to_cupy msg fn i items = [])
    by (apply IH; intros a Ha; apply Hsp; now right).
  destruct v; simpl; try apply Hrest.
  rewrite Hrest. unfold is_numpy. rewrite (Hsp a) by now left. reflexivity.
Qed.

Lemma copies_to_numpy_placed fn (items : list value) :
  (forall a, In (VArr a) items -> space a = Host) ->
  forall idx, copies_to_numpy fn idx items = [].
Proof.
  induction items as [|v items IH]; intros Hsp idx; [reflexivity|].
  assert (Hrest : forall i, copies_to_numpy fn i items = [])
    by (apply IH; intros a Ha; apply Hsp; now right).
  destruct v; simpl; try apply Hrest.
  rewrite Hrest. unfold is_cupy. rewrite (Hsp a) by now left. reflexivity.
Qed.

(** X6: conversion of the result is skipped where there is nothing to
    convert.  For a tuple or list output of length other than 1 whose arrays
    all live in the requested space already, the call returns a list of the
    very items the kernel returned, and the kernel's call is the last event
    of the trace: no copy is made and nothing is logged. *)
Theorem on_gpu_nothing_to_convert (func : kernel) (args : list value) (kwargs : dict)
    (sp : MemorySpace) (output : value) (items : list value) :
  dict_get "return_space" kwargs = Some (VStr (space_name sp)) ->
  run func (map to_cupy args) (dict_remove "return_space" kwargs) = Ok output ->
  output = VTuple items \/ output = VList items ->
  List.length items <> 1 ->
  (forall a, In (VArr a) items -> space a = sp) ->
  outcome (on_gpu func args kwargs) = Ok (VList items) /\
  events (on_gpu func args kwargs) =
    copies_to_cupy ConvertingArgToCupy (name func) 0 args
      ++ [LogDebug (name func) (ReturnSpaceRequested (VStr (space_name sp)));
          Call (map to_cupy args) (dict_remove "return_space" kwargs)].
Proof.
  intros Hget Hrun Hseq Hlen Hsp.
  rewrite (on_gpu_returning _ _ _ _ Hget Hrun), normalise_eq.
  assert (Hn : py_len output = Ok (List.length items)) by (destruct Hseq; subst; reflexivity).
  assert (Hit : py_iter output = Ok items) by (destruct Hseq; subst; reflexivity).
  assert (Harr : isinstance_ndarray output = false) by (destruct Hseq; subst; reflexivity).
  rewrite Hn, Hit, Harr. apply Nat.eqb_neq in Hlen. rewrite Hlen.
  cbn [orb events outcome fst snd]. rewrite (@map_to_space_placed _ _ Hsp).
  split; [reflexivity|]. do 3 f_equal.
  destruct sp; cbn [item_copies].
  - now apply copies_to_numpy_placed.
  - now apply copies_to_cupy_placed.
Qed.

Lemma on_gpu_nothing_to_convert_witness :
  outcome (on_gpu (kernel_const (VTuple [VArr device_buf; VInt 1])) []
                  [("return_space", VStr "gpu")])
  = Ok (VList [VArr device_buf; VInt 1]).
Proof.
  apply (on_gpu_nothing_to_convert (kernel_const (VTuple [VArr device_buf; VInt 1])) []
           [("return_space", VStr "gpu")] (sp := Device)
           (output := VTuple [VArr device_buf; VInt 1])
           (items := [VArr device_buf; VInt 1]));
    [reflexivity | reflexivity | now left | discriminate |].
  intros a [H|[H|[]]]; [now inversion H | discriminate].
Defined.

Lemma map_to_space_keys (sp : MemorySpace) (entries : dict) :
  map (to_space sp) (dict_keys entries) = dict_keys entries.
Proof.
  unfold dict_keys. rewrite map_map. apply map_ext. intros kv. now destruct sp.
Qed.

Lemma item_copies_keys fn (sp : MemorySpace) (entries : dict) :
  item_copies fn sp (dict_keys entries) = [].
Proof.
  destruct sp; cbn [item_copies].
  - apply copies_to_numpy_placed. intros a Ha. unfold dict_keys in Ha.
    apply in_map_iff in Ha. destruct Ha as (kv & Hkv & _). discriminate.
  - apply copies_to_cupy_placed. intros a Ha. unfold dict_keys in Ha.
    apply in_map_iff in Ha. destruct Ha as (kv & Hkv & _). discriminate.
Qed.

Lemma buffers_keys (entries : dict) : buffers (VList (dict_keys entries)) = [].
Proof.
  cbn [buffers]. unfold dict_keys.
  induction entries as [|kv entries IH]; [reflexivity|exact IH].
Qed.

(** X7: a dict output is iterated like any other sized value.  With an
    accepted [return_space], a kernel that returns a dict with no or several
    entries gets back the list of the dict's keys: the values, arrays
    included, are not in the result, and none of them is converted. *)
Theorem on_gpu_dict_output (func : kernel) (args : list value) (kwargs : dict)
    (sp : MemorySpace) (entries : dict) :
  dict_get "return_space" kwargs = Some (VStr (space_name sp)) ->
  run func (map to_cupy args) (dict_remove "return_space" kwargs) = Ok (VDict entries) ->
  List.length entries <> 1 ->
  outcome (on_gpu func args kwargs) = Ok (VList (dict_keys entries)) /\
  buffers (VList (dict_keys entries)) = [] /\
  events (on_gpu func args kwargs) =
    copies_to_cupy ConvertingArgToCupy (name func) 0 args
      ++ [LogDebug (name func) (ReturnSpaceRequested (VStr (space_name sp)));
          Call (map to_cupy args) (dict_remove "return_space" kwargs)].
Proof.
  intros Hget Hrun Hlen.
  rewrite (on_gpu_returning _ _ _ _ Hget Hrun), normalise_eq.
  cbn [py_len py_iter isinstance_ndarray isinstance_np isinstance_cp orb].
  apply Nat.eqb_neq in Hlen. rewrite Hlen.
  fold (dict_keys entries). rewrite map_to_space_keys, item_copies_keys.
  cbn [orb events outcome fst snd]. repeat split.
  apply buffers_keys.
Qed.

Lemma on_gpu_dict_output_witness :
  outcome (on_gpu (kernel_const (VDict [("power", VArr host_buf); ("snr", VInt 9)])) []
                  [("return_space", VStr "gpu")])
  = Ok (VList [VStr "power"; VStr "snr"]).
Proof.
  apply (on_gpu_dict_output
           (kernel_const (VDict [("power", VArr host_buf); ("snr", VInt 9)])) []
           [("return_space", VStr "gpu")] Device
           (entries := [("power", VArr host_buf); ("snr", VInt 9)]));
    [reflexivity | reflexivity | discriminate].
Defined.

(** ** Stacked decorators *)

Lemma to_cupy_idempotent (v : value) : to_cupy (to_cupy v) = to_cupy v.
Proof.
  destruct v; try reflexivity. cbn. destruct (is_numpy a) eqn:E; cbn; [reflexivity|].
  now rewrite E.
Qed.

Lemma map_to_cupy_idempotent (l : list value) :
  map to_cupy (map to_cupy l) = map to_cupy l.
Proof.
  rewrite map_map. apply map_ext. exact to_cupy_idempotent.
Qed.

(** The result of normalisation does not depend on the kernel, which only
    lends its name to the log. *)
Lemma normalise_outcome_any_kernel (f g : kernel) (return_space output : value) :
  outcome (normalise f return_space output) = outcome (normalise g return_space output).
Proof.
  destruct (eq_str return_space "gpu") eqn:Hgpu.
  - apply eq_str_true_iff in Hgpu. subst.
    change (VStr "gpu") with (VStr (space_name Device)).
    rewrite !normalise_eq. destruct (py_len output); [|reflexivity].
    destruct (_ || _); [reflexivity|]. now destruct (py_iter output).
  - destruct (eq_str return_space "cpu") eqn:Hcpu.
    + apply eq_str_true_iff in Hcpu. subst.
      change (VStr "cpu") with (VStr (space_name Host)).
      rewrite !normalise_eq. destruct (py_len output); [|reflexivity].
      destruct (_ || _); [reflexivity|]. now destruct (py_iter output).
    + unfold normalise. now rewrite Hgpu, Hcpu.
Qed.

(** A call with no [return_space] gives the kernel's answer. *)
Lemma on_gpu_outcome_plain (func : kernel) (args : list value) (kwargs : dict) :
  dict_get "return_space" kwargs = None ->
  outcome (on_gpu func args kwargs) = run func (map to_cupy args) kwargs.
Proof.
  intros Hget. rewrite on_gpu_eq. cbv zeta. now rewrite Hget.
Qed.

(** X9: decorating twice changes no result: [on_gpu(on_gpu(func))] returns
    or raises, on every call, what [on_gpu(func)] does.  The outer wrapper
    takes [return_space] away and hands over cupy arrays, so the inner one
    finds nothing to convert. *)
Theorem on_gpu_twice (func : kernel) (args : list value) (kwargs : dict) :
  outcome (on_gpu (decorated_on_gpu func) args kwargs) =
  outcome (on_gpu func args kwargs).
Proof.
  rewrite !on_gpu_eq. cbv zeta.
  destruct (dict_get "return_space" kwargs) as [v|] eqn:Hget.
  - destruct (eq_str v "cpu" || eq_str v "gpu"); [|reflexivity].
    cbn [outcome snd]. unfold decorated_on_gpu at 2. cbn [run wraps].
    rewrite on_gpu_outcome_plain by apply dict_get_remove_same.
    rewrite map_to_cupy_idempotent. unfold after_call.
    destruct (run func (map to_cupy args) (dict_remove "return_space" kwargs));
      [apply normalise_outcome_any_kernel|reflexivity].
  - cbn [outcome snd run decorated_on_gpu wraps].
    rewrite on_gpu_outcome_plain by exact Hget.
    now rewrite map_to_cupy_idempotent.
Qed.

(** X10: with [datwrapper] outside and [on_gpu] inside, the data of a
    DataArray reach the kernel on the device.  Called on a DataArray [d]
    whose data are a numpy array, with no [return_space], the stacked
    function answers as the kernel does on the cupy copy of [d.data], the
    other positional arguments converted, and the keyword arguments with
    [metadata] set. *)
Theorem datwrapper_over_on_gpu (func : kernel) (d : DataArray) (rest : list value)
    (kwargs : dict) :
  dict_get "return_space" kwargs = None ->
  is_numpy (data d) = true ->
  outcome (datwrapper (decorated_on_gpu func) (VDataArray d :: rest) kwargs) =
  run func (VArr (cp_asarray (data d)) :: map to_cupy rest)
      (dict_set "metadata" (VDict (make_metadata d)) kwargs).
Proof.
  intros Hget Hnp. rewrite datwrapper_data_array_eq. cbv zeta.
  cbn [outcome snd run decorated_on_gpu wraps].
  rewrite on_gpu_outcome_plain
    by (rewrite dict_get_set_other by discriminate; exact Hget).
  cbn [map to_cupy]. now rewrite Hnp.
Qed.

Lemma datwrapper_over_on_gpu_witness :
  outcome (datwrapper (decorated_on_gpu kernel_first)
                      [VDataArray example_data_array; VInt 4] [])
  = Ok (VArr (cp_asarray host_buf)).
Proof.
  apply (datwrapper_over_on_gpu kernel_first example_data_array [VInt 4] []);
    reflexivity.
Defined.

(** X11: with [on_gpu] outside and [datwrapper] inside, the data of a
    DataArray are not converted.  Called on a DataArray [d] with no
    [return_space], the stacked function answers as the kernel does on
    [d.data] as it is stored in [d] (on the host if it is a numpy array), the
    other positional arguments converted, and the keyword arguments with
    [metadata] set: [on_gpu] sees a DataArray, which is no numpy array, and
    passes it on to [datwrapper], which unpacks it. *)
Theorem on_gpu_over_datwrapper (func : kernel) (d : DataArray) (rest : list value)
    (kwargs : dict) :
  dict_get "return_space" kwargs = None ->
  outcome (on_gpu (decorated_datwrapper func) (VDataArray d :: rest) kwargs) =
  run func (VArr (data d) :: map to_cupy rest)
      (dict_set "metadata" (VDict (make_metadata d)) kwargs).
Proof.
  intros Hget. rewrite (on_gpu_outcome_plain _ _ _ Hget).
  cbn [map to_cupy run decorated_datwrapper wraps].
  now rewrite datwrapper_data_array_eq.
Qed.

Lemma on_gpu_over_datwrapper_witness :
  outcome (on_gpu (decorated_datwrapper kernel_first)
                  [VDataArray example_data_array; VInt 4] [])
  = Ok (VArr host_buf).
Proof.
  apply (on_gpu_over_datwrapper kernel_first example_data_array [VInt 4] []).
  reflexivity.
Defined.

(** X12: called with no positional argument, [on_gpu(datwrapper(func))]
    raises the [IndexError] of the inner [datwrapper], which [on_gpu] lets
    through, when [return_space] is absent or accepted; when it is rejected
    the call raises another exception before [datwrapper] is reached, the
    [AssertionError] of the [assert] for a value that is no array. *)
Theorem on_gpu_over_datwrapper_no_argument (func : kernel) (kwargs : dict) :
  (return_space_ok kwargs = true ->
   outcome (on_gpu (decorated_datwrapper func) [] kwargs) = Raise IndexError) /\
  (return_space_ok kwargs = false ->
   (exists e, outcome (on_gpu (decorated_datwrapper func) [] kwargs) = Raise e /\
              e <> IndexError) /\
   forall a k, ~ In (Call a k) (events (on_gpu (decorated_datwrapper func) [] kwargs))) /\
  (forall v, dict_get "return_space" kwargs = Some v ->
   return_space_ok kwargs = false -> isinstance_ndarray v = false ->
   outcome (on_gpu (decorated_datwrapper func) [] kwargs) = Raise AssertionError).
Proof.
  unfold return_space_ok. rewrite on_gpu_eq. cbv zeta.
  destruct (dict_get "return_space" kwargs) as [v|].
  - destruct (eq_str v "cpu" || eq_str v "gpu") eqn:Hv; cbn [events outcome fst snd].
    + split; [reflexivity|]. split; [discriminate|]. intros v' _ H. discriminate H.
    + split; [discriminate|]. split.
      * intros _. split.
        -- exists (rejection v). split; [reflexivity|].
           unfold rejection, in_cpu_gpu. destruct v; try discriminate.
           ++ cbn [truth_eq_str eq_str]. destruct (String.eqb s "cpu"); discriminate.
           ++ cbn [truth_eq_str]. destruct (space a); [|discriminate].
              destruct (size a =? 1)%nat; discriminate.
        -- intros a k [Hin|[]]. discriminate Hin.
      * intros v' Hv' _ Harr. inversion Hv'; subst v'. f_equal.
        apply rejection_not_array. destruct v; try exact I.
        unfold isinstance_ndarray in Harr. cbn in Harr.
        unfold is_numpy, is_cupy in Harr. destruct (space a); discriminate.
  - cbn [events outcome fst snd]. split; [reflexivity|]. split; [discriminate|].
    intros v' H. discriminate H.
Qed.

Lemma on_gpu_over_datwrapper_no_argument_witness :
  outcome (on_gpu (decorated_datwrapper kernel_first) [] [("return_space", VStr "cpu")])
  = Raise IndexError /\
  outcome (on_gpu (decorated_datwrapper kernel_first) [] [("return_space", VInt 0)])
  = Raise AssertionError.
Proof.
  destruct (on_gpu_over_datwrapper_no_argument kernel_first
              [("return_space", VStr "cpu")]) as (Hok & _).
  destruct (on_gpu_over_datwrapper_no_argument kernel_first
              [("return_space", VInt 0)]) as (_ & _ & Hassert).
  split; [apply Hok; reflexivity|].
  apply (Hassert (VInt 0)); reflexivity.
Defined.

(** ** The keyword arguments and the metadata that [datwrapper] builds *)

Lemma dict_set_absent (k : string) (v : value) (d : dict) :
  dict_get k d = None -> dict_set k v d = d ++ [(k, v)].
Proof.
  induction d as [|[k' v'] d IH]; simpl; [reflexivity|].
  destruct (String.eqb k' k); [discriminate|]. intros H. now rewrite IH.
Qed.

Lemma dict_set_present_keys (k : string) (v : value) (d : dict) :
  dict_get k d <> None -> map fst (dict_set k v d) = map fst d.
Proof.
  induction d as [|[k' v'] d IH]; simpl; [congruence|].
  destruct (String.eqb_spec k' k) as [->|Hne]; [reflexivity|].
  intros H. simpl. now rewrite IH.
Qed.

Lemma dict_get_app (k : string) (d1 d2 : dict) :
  dict_get k (d1 ++ d2) =
  match dict_get k d1 with Some v => Some v | None => dict_get k d2 end.
Proof.
  induction d1 as [|[k' v'] d1 IH]; simpl; [reflexivity|].
  destruct (String.eqb k' k); [reflexivity|exact IH].
Qed.

Lemma attrs_loop_append (items : list (string * value)) :
  dict_wf items ->
  forall metadata,
    (forall k, In k (map fst items) -> dict_get k metadata = None) ->
    attrs_loop items metadata = metadata ++ items.
Proof.
  unfold dict_wf.
  induction items as [|[k v] rest IH]; intros Hwf metadata Hfresh; simpl.
  - now rewrite app_nil_r.
  - inversion Hwf as [|? ? Hnotin Hrest]; subst.
    rewrite dict_set_absent by (apply Hfresh; now left).
    rewrite (IH Hrest).
    + now rewrite <- app_assoc.
    + intros k' Hk'. rewrite dict_get_app, (Hfresh k') by now right.
      simpl. destruct (String.eqb_spec k k') as [->|_]; [contradiction|reflexivity].
Qed.

(** X13: the [metadata] keyword of the call belongs to [datwrapper] when the
    first argument is a DataArray.  The kernel finds [metadata] bound to the
    dict built from [d]; a [metadata] the caller passed is replaced in its
    place and lost, the keywords keeping their names and order; without one,
    [metadata] comes last, after the caller's keywords. *)
Theorem datwrapper_metadata_keyword (func : kernel) (d : DataArray) (rest : list value)
    (kwargs : dict) (a : list value) (k : dict) :
  In (Call a k) (events (datwrapper func (VDataArray d :: rest) kwargs)) ->
  dict_get "metadata" k = Some (VDict (make_metadata d)) /\
  (dict_get "metadata" kwargs = None ->
   k = kwargs ++ [("metadata", VDict (make_metadata d))]) /\
  (dict_get "metadata" kwargs <> None -> map fst k = map fst kwargs).
Proof.
  rewrite datwrapper_data_array_eq. cbv zeta. cbn [events fst].
  intros [Hin|[]]. inversion Hin; subst; clear Hin.
  split; [apply dict_get_set_same|]. split.
  - apply dict_set_absent.
  - apply dict_set_present_keys.
Qed.

Lemma datwrapper_metadata_keyword_witness :
  In (Call [VArr host_buf]
           [("metadata", VDict (make_metadata example_data_array)); ("axis", VInt 0)])
     (events (datwrapper kernel_first [VDataArray example_data_array]
                         [("metadata", VStr "mine"); ("axis", VInt 0)])) /\
  map fst [("metadata", VDict (make_metadata example_data_array)); ("axis", VInt 0)]
  = map fst [("metadata", VStr "mine"); ("axis", VInt 0)].
Proof.
  assert (Hin : In (Call [VArr host_buf]
                         [("metadata", VDict (make_metadata example_data_array));
                          ("axis", VInt 0)])
                   (events (datwrapper kernel_first [VDataArray example_data_array]
                                       [("metadata", VStr "mine"); ("axis", VInt 0)])))
    by (left; reflexivity).
  split; [exact Hin|].
  destruct (datwrapper_metadata_keyword _ _ _ _ _ _ Hin) as (_ & _ & Hkeys).
  apply Hkeys. discriminate.
Defined.

(** X14: when no attribute of [d] is named [dt], [t0], [df] or [f0], the
    [metadata] dict lists the attributes of [d] in their order, followed by
    [dt], [t0], [df] and [f0] in this order, and nothing else. *)
Theorem datwrapper_metadata_layout (func : kernel) (d : DataArray) (rest : list value)
    (kwargs : dict) :
  dict_wf (attrs d) ->
  (forall k, derived_key k = true -> dict_get k (attrs d) = None) ->
  events (datwrapper func (VDataArray d :: rest) kwargs) =
  [Call (VArr (data d) :: rest)
        (dict_set "metadata" (VDict (attrs d ++ derived_entries d)) kwargs)].
Proof.
  intros Hwf Hfresh. rewrite datwrapper_data_array_eq. cbv zeta. cbn [events fst].
  do 4 f_equal. unfold make_metadata. cbv zeta.
  rewrite (attrs_loop_append Hwf) by reflexivity. cbn [app].
  rewrite (dict_set_absent "dt") by (apply Hfresh; reflexivity).
  rewrite (dict_set_absent "t0")
    by (rewrite dict_get_app, Hfresh; reflexivity).
  rewrite (dict_set_absent "df")
    by (rewrite !dict_get_app, Hfresh; reflexivity).
  rewrite (dict_set_absent "f0")
    by (rewrite !dict_get_app, Hfresh; reflexivity).
  rewrite <- !app_assoc. reflexivity.
Qed.

Lemma datwrapper_metadata_layout_witness :
  events (datwrapper kernel_first [VDataArray example_data_array] []) =
  [Call [VArr host_buf]
        [("metadata",
          VDict [("source", VStr "Voyager1"); ("nbits", VInt 32);
                 ("dt", VFloat (float_lit 0x10c6f7a0b5ed8d (-72)));
                 ("t0", VFloat (float_lit 100 0));
                 ("df", VFloat (float_lit 500000 0));
                 ("f0", VFloat (float_lit 1000000000 0))])]].
Proof.
  apply (@datwrapper_metadata_layout kernel_first example_data_array [] []).
  - repeat constructor; simpl; intuition discriminate.
  - intros k Hk. unfold derived_key in Hk. cbn -[String.eqb].
    destruct (String.eqb_spec "source" k) as [<-|_]; [discriminate|].
    destruct (String.eqb_spec "nbits" k) as [<-|_]; [discriminate|reflexivity].
Defined.

(** ** Array outputs *)

(** X15: an array output of at least one dimension is handled as a whole,
    whatever its length: with an accepted [return_space] the call returns an
    array in the requested space with the shape and the elements of the
    kernel's output, and when the output lives in that space already the
    kernel's call is the last event, so that no copy is made. *)
Theorem on_gpu_array_output (func : kernel) (args : list value) (kwargs : dict)
    (sp : MemorySpace) (out : ndarray) :
  dict_get "return_space" kwargs = Some (VStr (space_name sp)) ->
  run func (map to_cupy args) (dict_remove "return_space" kwargs) = Ok (VArr out) ->
  shape out <> [] ->
  outcome (on_gpu func args kwargs) =
    Ok (VArr {| space := sp; shape := shape out; elems := elems out |}) /\
  (space out = sp ->
   outcome (on_gpu func args kwargs) = Ok (VArr out) /\
   events (on_gpu func args kwargs) =
     copies_to_cupy ConvertingArgToCupy (name func) 0 args
       ++ [LogDebug (name func) (ReturnSpaceRequested (VStr (space_name sp)));
           Call (map to_cupy args) (dict_remove "return_space" kwargs)]).
Proof.
  intros Hget Hrun Hshape.
  rewrite (on_gpu_returning _ _ _ _ Hget Hrun), normalise_eq.
  cbn [py_len]. destruct (shape out) as [|n sh] eqn:Hsh; [congruence|].
  replace (isinstance_ndarray (VArr out)) with true
    by (unfold isinstance_ndarray; cbn; unfold is_numpy, is_cupy; now destruct (space out)).
  rewrite orb_true_r. cbn [events outcome fst snd].
  rewrite to_space_array, Hsh. split; [reflexivity|].
  intros Hsp. split.
  - destruct out as [sp' sh' el]. cbn in *. now subst.
  - do 3 f_equal. destruct sp, out as [[] sh' el]; cbn in *; congruence.
Qed.

Lemma on_gpu_array_output_witness :
  outcome (on_gpu kernel_first [VArr host_buf] [("return_space", VStr "gpu")])
  = Ok (VArr {| space := Device; shape := [3]; elems := [1; 2; 3]%Z |}).
Proof.
  destruct (on_gpu_array_output kernel_first [VArr host_buf]
              [("return_space", VStr "gpu")] Device (out := cp_asarray host_buf))
    as [Hout _]; [reflexivity | reflexivity | discriminate |].
  exact Hout.
Defined.
